(** * sortfileslocally: the web client and the ingestion contract it talks to

    A shallow embedding of the React client under [web/] (scan panel, chat
    panel, gallery page, the [lib/api] fetch wrappers and the older
    react-query gallery) together with a model of the scan orchestrator and
    query engine the client is written against.

    Conventions of the embedding.
    - A JavaScript string is the list of its UTF-16 code units.
    - A JavaScript number is an IEEE-754 binary64 value: Rocq's primitive
      [float].
    - A component's render function returns a tree of elements; only the
      attributes that carry behaviour are kept ([className] is dropped).
    - An [async] handler that awaits one [fetch] is split at the [await]:
      the state it has set so far, the request it sends, and what it does
      with the outcome. *)

From Stdlib Require Import ZArith NArith List Bool Lia String Ascii Floats.
From stdpp Require Import gmap sorting.
Import ListNotations.

Set Default Proof Using "Type".
Set Warnings "-register-all".
Open Scope string_scope.
Open Scope list_scope.

(* ===================================================================== *)
(** ** JavaScript values as the client uses them *)
(* ===================================================================== *)

Module Js.

(** A string: the sequence of its UTF-16 code units. *)
Abbreviation JsString := (list N).

(** A literal of the source text (all literals of the client are ASCII). *)
Definition lit (s : string) : JsString :=
  List.map N_of_ascii (list_ascii_of_string s).

(** [s ? true : false] for a string: only the empty string is falsy. *)
Definition truthy_str (s : JsString) : bool :=
  match s with [] => false | _ :: _ => true end.

(** [x ? true : false] for an optional string field ([undefined]/[null] or
    a string). *)
Definition truthy_ostr (o : option JsString) : bool :=
  match o with None => false | Some s => truthy_str s end.

(** ECMAScript WhiteSpace and LineTerminator code units, the characters
    [String.prototype.trim] strips. *)
Definition is_white_space (c : N) : bool :=
  ((9 <=? c) && (c <=? 13) || (c =? 32) || (c =? 160) || (c =? 5760)
   || (8192 <=? c) && (c <=? 8202) || (c =? 8232) || (c =? 8233)
   || (c =? 8239) || (c =? 8287) || (c =? 12288) || (c =? 65279))%N.

Fixpoint trim_start (s : JsString) : JsString :=
  match s with
  | [] => []
  | c :: r => if is_white_space c then trim_start r else s
  end.

Definition trim_end (s : JsString) : JsString := rev (trim_start (rev s)).

(** [s.trim()] *)
Definition trim (s : JsString) : JsString := trim_end (trim_start s).

(** [!s.trim()]: the string is empty or consists of white space only. *)
Definition blank (s : JsString) : bool := negb (truthy_str (trim s)).

(** The string is empty or made of white space only, said directly. *)
Definition whitespace_only (s : JsString) : Prop :=
  forallb is_white_space s = true.

Definition eqb_str (a b : JsString) : bool :=
  if decide (a = b) then true else false.

(** [arr.includes(x)] on an array of strings. *)
Definition includes (arr : list JsString) (x : JsString) : bool :=
  existsb (eqb_str x) arr.

(** [s.split(/[/\\]/).pop()]: what follows the last slash or backslash. *)
Definition is_separator (c : N) : bool := ((c =? 47) || (c =? 92))%N.

Fixpoint last_component (acc s : JsString) : JsString :=
  match s with
  | [] => acc
  | c :: r => if is_separator c then last_component [] r
              else last_component (acc ++ [c]) r
  end.

Definition split_pop (s : JsString) : JsString := last_component [] s.

(** A number. *)
Abbreviation number := float.

(** [x ? true : false] for a number: [NaN], [+0] and [-0] are falsy. *)
Definition truthy_num (x : number) : bool :=
  negb (PrimFloat.is_nan x || PrimFloat.is_zero x).

Definition is_neg_zero (x : number) : bool :=
  match PrimFloat.classify x with NZero => true | _ => false end.

(** [Math.max(a, b)]: [NaN] if either is [NaN]; [+0] is larger than [-0]. *)
Definition Math_max (a b : number) : number :=
  if PrimFloat.is_nan a || PrimFloat.is_nan b then PrimFloat.nan
  else if PrimFloat.ltb a b then b
  else if PrimFloat.ltb b a then a
  else if is_neg_zero a then b else a.

(** [Math.min(a, b)]: [NaN] if either is [NaN]; [-0] is smaller than [+0]. *)
Definition Math_min (a b : number) : number :=
  if PrimFloat.is_nan a || PrimFloat.is_nan b then PrimFloat.nan
  else if PrimFloat.ltb a b then a
  else if PrimFloat.ltb b a then b
  else if is_neg_zero a then a else b.

(** [x || d] where [x] is a number or missing. *)
Definition num_or (x : option number) (d : number) : number :=
  match x with
  | Some v => if truthy_num v then v else d
  | None => d
  end.

(** [NaN], on the specification side of a float. *)
Definition sf_is_nan (f : spec_float) : bool :=
  match f with S754_nan => true | _ => false end.

(** What the client needs of number formatting and of the arithmetic that
    primitive floats do not offer. *)
Record NumberOps := {
  toFixed : number -> nat -> JsString;   (* x.toFixed(d) *)
  toString : number -> JsString;         (* `${x}` *)
  Math_floor : number -> number;         (* Math.floor(x) *)
  rem : number -> number -> number       (* x % y *)
}.

End Js.

Export Js.

(* ===================================================================== *)
(** ** Rendered output and the HTTP boundary *)
(* ===================================================================== *)

Module Dom.

(** What an [src] attribute points at ([getThumbnailUrl], [getOriginalUrl]). *)
Inductive Url :=
| ThumbnailUrl (id : N) (size : N)   (* /media/{id}/thumbnail?size={size} *)
| OriginalUrl (id : N).              (* /media/{id}/original *)

(** Attributes of an element; [H] is the component's type of handlers. *)
Inductive Attr (H : Type) :=
| Type_ (t : string)
| Id (i : string)
| HtmlFor (i : string)
| Placeholder (s : string)
| Alt (s : JsString)
| Value (v : JsString)
| Checked (b : bool)
| Disabled (b : bool)
| Src (u : Url)
| StyleWidthPercent (w : number)     (* style={{ width: `${w}%` }} *)
| OnClick (h : H)
| OnChange (h : H)
| OnSubmit (h : H)
| OnMouseEnter (h : H)
| OnMouseLeave (h : H).

Arguments Type_ {H} t.
Arguments Id {H} i.
Arguments HtmlFor {H} i.
Arguments Placeholder {H} s.
Arguments Alt {H} s.
Arguments Value {H} v.
Arguments Checked {H} b.
Arguments Disabled {H} b.
Arguments Src {H} u.
Arguments StyleWidthPercent {H} w.
Arguments OnClick {H} h.
Arguments OnChange {H} h.
Arguments OnSubmit {H} h.
Arguments OnMouseEnter {H} h.
Arguments OnMouseLeave {H} h.

(** A rendered tree. An element is an HTML tag or an icon component. *)
Inductive VNode (H : Type) :=
| Txt (s : JsString)
| NumTxt (x : number)
| El (tag : string) (attrs : list (Attr H)) (children : list (VNode H)).

Arguments Txt {H} s.
Arguments NumTxt {H} x.
Arguments El {H} tag attrs children.

(** [{c && node}] with a boolean [c]: nothing is rendered when [c] is false. *)
Definition when {H} (c : bool) (n : VNode H) : list (VNode H) :=
  if c then [n] else [].

(** A node and all its descendants, in document order. *)
Fixpoint nodes {H} (n : VNode H) : list (VNode H) :=
  n :: match n with
       | El _ _ cs => flat_map nodes cs
       | _ => []
       end.

Definition tag_of {H} (n : VNode H) : option string :=
  match n with El t _ _ => Some t | _ => None end.

Definition attrs_of {H} (n : VNode H) : list (Attr H) :=
  match n with El _ a _ => a | _ => [] end.

Definition children_of {H} (n : VNode H) : list (VNode H) :=
  match n with El _ _ cs => cs | _ => [] end.

Definition has_tag {H} (t : string) (n : VNode H) : bool :=
  match n with El t' _ _ => String.eqb t t' | _ => false end.

(** The element is disabled: it carries a truthy [disabled] attribute. *)
Definition is_disabled {H} (n : VNode H) : bool :=
  existsb (fun a => match a with Disabled true => true | _ => false end)
          (attrs_of n).

(** The percentage of a [style.width], if the element has one. *)
Definition width_percent {H} (n : VNode H) : option number :=
  match List.find (fun a => match a with StyleWidthPercent _ => true | _ => false end)
                  (attrs_of n) with
  | Some (StyleWidthPercent w) => Some w
  | _ => None
  end.

(** The nodes of a tree that satisfy [p]. *)
Definition select {H} (p : VNode H -> bool) (t : VNode H) : list (VNode H) :=
  List.filter p (nodes t).

Definition has_width {H} (n : VNode H) : bool :=
  match width_percent n with Some _ => true | None => false end.

(** The element contains the icon [name] somewhere below it. *)
Definition has_icon {H} (name : string) (n : VNode H) : bool :=
  existsb (has_tag name) (nodes n).

End Dom.

Export Dom.

Module Http.

Inductive Method := GET | POST.

(** A value appended to a [URLSearchParams] or put in a JSON body. *)
Inductive Param :=
| PStr (s : JsString)
| PNum (n : N)
| PBool (b : bool).

(** A request as [fetch] receives it. [body = None]: no body is sent;
    [Some fields]: [JSON.stringify] of an object with these fields. *)
Record Request := {
  method : Method;
  endpoint : string;                       (* path below the API base URL *)
  query : list (string * Param);
  body : option (list (string * Param))
}.

(** The result of an [async] function: a value, or a thrown [Error] with
    its message. *)
Inductive Result (A : Type) :=
| Returned (a : A)
| Thrown (message : JsString).

Arguments Returned {A} a.
Arguments Thrown {A} message.

(** What awaiting [fetch] and then [res.json()] can give: [fetch] rejects
    with an error, or a response arrives whose [ok] flag is set or not and
    whose [json()] resolves to a value of the expected shape or rejects. *)
Inductive Outcome (B : Type) :=
| NetworkError (message : JsString)
| Response (ok : bool) (json : Result B).

Arguments NetworkError {B} message.
Arguments Response {B} ok json.

(** An [async] function that awaits one request. *)
Record Call (B A : Type) := {
  request : Request;
  resume : Outcome B -> Result A
}.

Arguments request {B A} c.
Arguments resume {B A} c o.

(** An event handler of a component with state [S]: it either returns
    without awaiting anything, or sets state, sends one request and, when
    the outcome arrives, updates the state it then finds. *)
Inductive Handler (S B : Type) :=
| Done (st : S)
| Await (st : S) (req : Request) (k : Outcome B -> S -> S).

Arguments Done {S B} st.
Arguments Await {S B} st req k.

(** The requests a handler sends. *)
Definition requests {S B} (h : Handler S B) : list Request :=
  match h with Done _ => [] | Await _ req _ => [req] end.

(** The state once the handler has run to its end with outcome [o], when
    nothing else touched the state in between. *)
Definition final {S B} (h : Handler S B) (o : Outcome B) : S :=
  match h with Done st => st | Await st _ k => k o st end.

End Http.

Export Http.

(* ===================================================================== *)
(** ** [web/src/lib/api.ts] *)
(* ===================================================================== *)

Module Api.

Record MediaItem := {
  id : N;
  file_path : JsString;
  media_type : JsString;
  width : option number;
  height : option number;
  tags : list JsString;
  character_tags : list JsString;
  series_tags : list JsString;
  snippet : option JsString   (* match text of a search hit, if any *)
}.

(** The object [GET /scan/status] answers with. *)
Record ScanStatus := {
  is_active : bool;
  current_file : option JsString;
  progress_percent : option number;
  processed_count : option number;
  total_files : option number;
  eta_seconds : option number;
  error : option JsString
}.

Record FetchOptions := {
  opt_limit : option N;
  opt_offset : option N;
  opt_character : option JsString;
  opt_series : option JsString;
  opt_tag : option JsString;
  opt_media_type : option JsString
}.

(** [if (x) params.append(name, x.toString())] for a count: [0] and a
    missing value append nothing. *)
Definition append_num (name : string) (x : option N) : list (string * Param) :=
  match x with
  | Some n => if (n =? 0)%N then [] else [(name, PNum n)]
  | None => []
  end.

(** [if (x) params.append(name, x)] for a string. *)
Definition append_str (name : string) (x : option JsString) : list (string * Param) :=
  match x with
  | Some v => if truthy_str v then [(name, PStr v)] else []
  | None => []
  end.

Definition fetchMedia (options : FetchOptions) : Call (list MediaItem) (list MediaItem) :=
  {| request := {| method := GET; endpoint := "/gallery/";
                   query := append_num "limit" (opt_limit options)
                            ++ append_num "offset" (opt_offset options)
                            ++ append_str "character" (opt_character options)
                            ++ append_str "series" (opt_series options)
                            ++ append_str "tag" (opt_tag options)
                            ++ append_str "media_type" (opt_media_type options);
                   body := None |};
     resume := fun o =>
       match o with
       | NetworkError m => Thrown m
       | Response false _ => Thrown (lit "Failed to fetch media")
       | Response true j => j
       end |}.

Definition default_top_k : N := 50.

Definition searchMedia (query : JsString) (top_k : N) : Call (list MediaItem) (list MediaItem) :=
  {| request := {| method := POST; endpoint := "/gallery/search";
                   query := [("query", PStr query); ("top_k", PNum top_k)];
                   body := None |};
     resume := fun o =>
       match o with
       | NetworkError m => Thrown m
       | Response false _ => Thrown (lit "Search failed")
       | Response true j => j
       end |}.

(** The JSON [POST /gallery/chat] answers with. *)
Record ChatAnswer := { answer : JsString }.

Definition chatWithImage (file_path prompt : JsString) : Call ChatAnswer JsString :=
  {| request := {| method := POST; endpoint := "/gallery/chat";
                   query := [];
                   body := Some [("file_path", PStr file_path); ("prompt", PStr prompt)] |};
     resume := fun o =>
       match o with
       | NetworkError m => Thrown m
       | Response false _ => Thrown (lit "Chat failed")
       | Response true (Thrown m) => Thrown m
       | Response true (Returned data) => Returned (answer data)
       end |}.

Definition getThumbnailUrl (id : N) (size : N) : Url := ThumbnailUrl id size.

Definition getOriginalUrl (id : N) : Url := OriginalUrl id.

Definition startScan (target_path : JsString) (force_reprocess : bool) : Call unit unit :=
  {| request := {| method := POST; endpoint := "/scan/start";
                   query := [];
                   body := Some [("target_path", PStr target_path);
                                 ("force_reprocess", PBool force_reprocess)] |};
     resume := fun o =>
       match o with
       | NetworkError m => Thrown m
       | Response false _ => Thrown (lit "Failed to start scan")
       | Response true j => j
       end |}.

Definition getScanStatus : Call ScanStatus ScanStatus :=
  {| request := {| method := GET; endpoint := "/scan/status"; query := []; body := None |};
     resume := fun o =>
       match o with
       | NetworkError m => Thrown m
       | Response false _ => Thrown (lit "Failed to fetch scan status")
       | Response true j => j
       end |}.

End Api.

(* ===================================================================== *)
(** ** [web/src/components/ScanUI.tsx] *)
(* ===================================================================== *)

Module ScanUI.

Record State := {
  path : JsString;
  forceReprocess : bool;
  status : option Api.ScanStatus;   (* [null] until the first poll answers *)
  error : JsString;
  starting : bool
}.

Definition initial : State :=
  {| path := []; forceReprocess := false; status := None; error := [];
     starting := false |}.

Definition setStatus (v : option Api.ScanStatus) (st : State) : State :=
  {| path := path st; forceReprocess := forceReprocess st; status := v;
     error := error st; starting := starting st |}.

Definition setError (v : JsString) (st : State) : State :=
  {| path := path st; forceReprocess := forceReprocess st; status := status st;
     error := v; starting := starting st |}.

Definition setStarting (v : bool) (st : State) : State :=
  {| path := path st; forceReprocess := forceReprocess st; status := status st;
     error := error st; starting := v |}.

Definition setPath (v : JsString) (st : State) : State :=
  {| path := v; forceReprocess := forceReprocess st; status := status st;
     error := error st; starting := starting st |}.

Definition setForceReprocess (v : bool) (st : State) : State :=
  {| path := path st; forceReprocess := v; status := status st;
     error := error st; starting := starting st |}.

(** [status?.is_active], as a condition. *)
Definition active (status : option Api.ScanStatus) : bool :=
  match status with Some s => Api.is_active s | None => false end.

(** [status?.f] for an optional field [f]. *)
Definition field {A} (f : Api.ScanStatus -> option A) (status : option Api.ScanStatus) : option A :=
  match status with Some s => f s | None => None end.

(** The polling effect: one round of [fetchStatus]. A failed poll leaves
    the status as it was. *)
Definition fetchStatus (st : State) : Handler State Api.ScanStatus :=
  Await st (request Api.getScanStatus)
    (fun o s => match resume Api.getScanStatus o with
                | Returned data => setStatus (Some data) s
                | Thrown _ => s
                end).

(** Milliseconds until the next poll. *)
Definition poll_delay (o : Outcome Api.ScanStatus) : N :=
  match resume Api.getScanStatus o with
  | Returned data => if Api.is_active data then 1000 else 8000
  | Thrown _ => 8000
  end%N.

Definition handleStart (st : State) : Handler State unit :=
  if blank (path st) then Done st
  else
    let call := Api.startScan (trim (path st)) (forceReprocess st) in
    Await (setError [] (setStarting true st)) (request call)
      (fun o s =>
         match resume call o with
         | Returned _ => setStarting false s
         | Thrown m =>
             setStarting false
               (setError (if truthy_str m then m else lit "Failed to start scan") s)
         end).

Section Render.

Context (ops : NumberOps).

Definition formatETA (seconds : option number) : JsString :=
  match seconds with
  | None => lit "--:--"
  | Some x =>
      if negb (truthy_num x) || PrimFloat.leb x 0 then lit "--:--"
      else
        let m := Math_floor ops (PrimFloat.div x 60) in
        let s := Math_floor ops (rem ops x 60) in
        toString ops m ++ lit "m " ++ toString ops s ++ lit "s"
  end.

Inductive Event := SetPath | SetForceReprocess | HandleStart.

(** The file name shown while scanning. *)
Definition scanning_label (status : option Api.ScanStatus) : JsString :=
  match field Api.current_file status with
  | Some f => if truthy_str f then split_pop f else lit "Preparing..."
  | None => lit "Preparing..."
  end.

(** [{status?.progress_percent?.toFixed(1) || 0}] *)
Definition percent_label (status : option Api.ScanStatus) : VNode Event :=
  match field Api.progress_percent status with
  | Some x => let s := toFixed ops x 1 in
              if truthy_str s then Txt s else NumTxt 0
  | None => NumTxt 0
  end.

(** The width of the bar's fill, in percent. *)
Definition fill_width (status : option Api.ScanStatus) : number :=
  Math_min 100 (Math_max 0 (num_or (field Api.progress_percent status) 0)).

Definition start_button (st : State) : VNode Event :=
  El "button" [OnClick HandleStart; Disabled (starting st || blank (path st))]
     [ if starting st then El "Loader2" [] [] else El "Play" [] [];
       Txt (lit "Start Scan") ].

Definition progress_view (status : option Api.ScanStatus) : VNode Event :=
  El "div" []
     [ El "div" []
          [ El "div" []
               [ El "RefreshCw" [] [];
                 El "span" [] [Txt (lit "Scanning: "); Txt (scanning_label status)] ];
            El "span" [] [percent_label status; Txt (lit "%")] ];
       El "div" []
          [ El "div" [StyleWidthPercent (fill_width status)] [] ];
       El "div" []
          [ El "span" []
               [ NumTxt (num_or (field Api.processed_count status) 0);
                 Txt (lit " / ");
                 NumTxt (num_or (field Api.total_files status) 0);
                 Txt (lit " Files") ];
            El "span" [] [Txt (lit "ETA: ");
                          Txt (formatETA (field Api.eta_seconds status))] ] ].

(** The banner of a failed start request ([{error && ...}]). *)
Definition start_error_banner (st : State) : list (VNode Event) :=
  when (truthy_str (error st))
       (El "div" [] [El "AlertTriangle" [] []; El "span" [] [Txt (error st)]]).

(** The banner of a failed background scan ([{status?.error && ...}]). *)
Definition scan_error_banner (status : option Api.ScanStatus) : list (VNode Event) :=
  match field Api.error status with
  | Some msg =>
      when (truthy_str msg)
           (El "div" []
               [ El "AlertCircle" [] [];
                 El "span" [] [Txt (lit "Background Scan Error: "); Txt msg] ])
  | None => []
  end.

Definition render (st : State) : VNode Event :=
  El "div" []
     ([ El "div" [] [El "FolderSearch" [] []; Txt (lit "Folder Scanner")];
        El "div" []
           [ El "label" [] [Txt (lit "Source Directory")];
             El "input" [Type_ "text"; Value (path st); OnChange SetPath;
                         Placeholder "Enter directory path...";
                         Disabled (active (status st))] [] ];
        El "div" []
           [ El "input" [Type_ "checkbox"; Id "forceReprocess";
                         Checked (forceReprocess st); OnChange SetForceReprocess;
                         Disabled (active (status st))] [];
             El "label" [HtmlFor "forceReprocess"]
                [Txt (lit "Force Reprocess (Overwrites existing AI data)")] ] ]
      ++ start_error_banner st
      ++ scan_error_banner (status st)
      ++ [ if negb (active (status st)) then start_button st
           else progress_view (status st) ]).

(** The element carries [handleStart]: activating it starts a scan. *)
Definition starts_scan (n : VNode Event) : bool :=
  existsb (fun a => match a with
                    | OnClick HandleStart | OnChange HandleStart
                    | OnSubmit HandleStart => true
                    | _ => false
                    end) (attrs_of n).

(** The element belongs to the progress view: the spinner or the bar's
    fill. *)
Definition shows_progress (n : VNode Event) : bool :=
  has_tag "RefreshCw" n || has_width n.

(** The message a node shows as a background scan error, if the node is
    that banner: the [AlertCircle] icon and the labelled message. *)
Definition scan_error_shown (n : VNode Event) : option JsString :=
  match n with
  | El _ _ [icon; El _ _ [_; Txt msg]] =>
      if has_tag "AlertCircle" icon then Some msg else None
  | _ => None
  end.

Definition shown_scan_errors (t : VNode Event) : list JsString :=
  flat_map (fun n => match scan_error_shown n with Some m => [m] | None => [] end)
           (nodes t).

(** The background error the status reports, if it reports one the panel
    treats as an error: a non-empty message. *)
Definition reported_error (status : option Api.ScanStatus) : option JsString :=
  match field Api.error status with
  | Some msg => if truthy_str msg then Some msg else None
  | None => None
  end.

End Render.

(** A scan request whose target path is [p]. *)
Definition targets (r : Request) (p : JsString) : Prop :=
  exists force, body r = Some [("target_path", PStr p); ("force_reprocess", PBool force)].

(** The width as the specification words it: [min(100, max(0, p))] of the
    reported percentage [p], and 0 when none is reported. *)
Definition clamped_percent (p : option number) : number :=
  match p with
  | Some x => Math_min 100 (Math_max 0 x)
  | None => 0
  end.

(** A number lies in the closed interval from 0 to 100. *)
Definition within_0_100 (w : number) : Prop :=
  PrimFloat.leb 0 w = true /\ PrimFloat.leb w 100 = true.

(** A status in which every reported number is a number JSON can carry:
    [JSON.parse] never yields [NaN]. *)
Definition percent_is_json_number (status : option Api.ScanStatus) : Prop :=
  forall x, field Api.progress_percent status = Some x -> PrimFloat.is_nan x = false.

(** Sample values: a stand-in for the number formatting, a status, a state. *)
Definition sample_ops : NumberOps :=
  {| toFixed := fun _ _ => lit "0.0"; toString := fun _ => lit "0";
     Math_floor := fun x => x; rem := fun x _ => x |}.

Definition sample_status (running : bool) (percent : option number)
    (err : option JsString) : Api.ScanStatus :=
  {| Api.is_active := running; Api.current_file := Some (lit "C:/media/a.png");
     Api.progress_percent := percent; Api.processed_count := Some 3%float;
     Api.total_files := Some 4%float; Api.eta_seconds := Some 12%float;
     Api.error := err |}.

Definition sample_state (p : JsString) (status : option Api.ScanStatus) : State :=
  {| path := p; forceReprocess := false; status := status; error := [];
     starting := false |}.

End ScanUI.

(* ===================================================================== *)
(** ** [web/src/components/ChatPanel.tsx] *)
(* ===================================================================== *)

Module ChatPanel.

Inductive Role := user | assistant.

Record Message := { role : Role; content : JsString }.

Record State := {
  messages : list Message;
  input : JsString;
  isLoading : bool
}.

Definition initial : State := {| messages := []; input := []; isLoading := false |}.

Definition setMessages (v : list Message) (st : State) : State :=
  {| messages := v; input := input st; isLoading := isLoading st |}.

Definition setInput (v : JsString) (st : State) : State :=
  {| messages := messages st; input := v; isLoading := isLoading st |}.

Definition setIsLoading (v : bool) (st : State) : State :=
  {| messages := messages st; input := input st; isLoading := v |}.

Definition greeting : Message :=
  {| role := assistant;
     content := lit "Hi! I'm analyzing this image. What would you like to know?" |}.

Definition error_reply : Message :=
  {| role := assistant;
     content := lit "Sorry, I encountered an error while analyzing the image." |}.

(** The effect that runs when [item] changes: the transcript is emptied
    and, if an item is selected, restarted with the greeting. *)
Definition on_item_change (item : option Api.MediaItem) (st : State) : State :=
  let st1 := setMessages [] st in
  match item with
  | Some _ => setMessages [greeting] st1
  | None => st1
  end.

(** [handleSend] for the selected [item] (the panel renders nothing, and
    so offers no form, when no item is selected). *)
Definition handleSend (item : Api.MediaItem) (st : State) : Handler State Api.ChatAnswer :=
  if blank (input st) || isLoading st then Done st
  else
    let userMessage := trim (input st) in
    let call := Api.chatWithImage (Api.file_path item) userMessage in
    Await (setIsLoading true
             (setMessages (messages st ++ [{| role := user; content := userMessage |}])
                (setInput [] st)))
          (request call)
          (fun o s =>
             setIsLoading false
               match resume call o with
               | Returned response =>
                   setMessages (messages s ++ [{| role := assistant; content := response |}]) s
               | Thrown _ =>
                   setMessages (messages s ++ [error_reply]) s
               end).

Inductive Event := Close | SetInput | HandleSend.

Definition bubble (msg : Message) : VNode Event :=
  El "div" [] [El "div" [] [Txt (content msg)]].

Definition render (item : option Api.MediaItem) (st : State) : option (VNode Event) :=
  match item with
  | None => None
  | Some it =>
      Some
        (El "div" []
           [ El "div" []
                [ El "h3" [] [Txt (10024%N :: lit " Chat with Image")];
                  El "button" [OnClick Close] [El "X" [] []] ];
             El "div" []
                [ El "img" [Src (Api.getOriginalUrl (Api.id it)); Alt (lit "Selected")] [] ];
             El "div" []
                (List.map bubble (messages st)
                 ++ when (isLoading st)
                      (El "div" []
                          [El "div" [] [El "Loader2" [] []; Txt (lit "Thinking...")]])
                 ++ [El "div" [] []]);
             El "div" []
                [ El "form" [OnSubmit HandleSend]
                     [ El "input" [Type_ "text"; Value (input st); OnChange SetInput;
                                   Placeholder "Ask about this image...";
                                   Disabled (isLoading st)] [];
                       El "button" [Type_ "submit";
                                    Disabled (blank (input st) || isLoading st)]
                          [El "Send" [] []] ] ] ])
  end.

(** A sample item. *)
Definition sample_item : Api.MediaItem :=
  {| Api.id := 7; Api.file_path := lit "C:/media/cat.png";
     Api.media_type := lit "image"; Api.width := Some 640%float;
     Api.height := Some 480%float; Api.tags := [lit "cat"];
     Api.character_tags := [lit "tama"]; Api.series_tags := [];
     Api.snippet := None |}.

(** The request failed: [fetch] rejected, the response was not ok, or its
    body could not be read. *)
Definition failed {B} (o : Outcome B) : bool :=
  match o with
  | NetworkError _ => true
  | Response false _ => true
  | Response true (Thrown _) => true
  | Response true (Returned _) => false
  end.

End ChatPanel.

(* ===================================================================== *)
(** ** [web/src/components/Sidebar.tsx] *)
(* ===================================================================== *)

Module Sidebar.

Record FilterState := {
  character : option JsString;
  series : option JsString;
  media_type : option JsString
}.

Definition no_filters : FilterState :=
  {| character := None; series := None; media_type := None |}.

Record State := {
  selectedCharacter : JsString;
  selectedSeries : JsString;
  selectedMediaType : JsString
}.

Definition All : JsString := lit "All".

Definition initial : State :=
  {| selectedCharacter := All; selectedSeries := All; selectedMediaType := All |}.

(** [v === 'All' ? undefined : v] *)
Definition unless_all (v : JsString) : option JsString :=
  if eqb_str v All then None else Some v.

Inductive FilterKind := character_filter | series_filter | media_filter.

(** [handleFilterUpdate(type, val)]: the new selection, and the filters
    handed to [onFilterChange]. *)
Definition handleFilterUpdate (type : FilterKind) (val : JsString) (st : State)
  : State * FilterState :=
  let c := match type with character_filter => val | _ => selectedCharacter st end in
  let s := match type with series_filter => val | _ => selectedSeries st end in
  let m := match type with media_filter => val | _ => selectedMediaType st end in
  ({| selectedCharacter := c; selectedSeries := s; selectedMediaType := m |},
   {| character := unless_all c; series := unless_all s; media_type := unless_all m |}).

End Sidebar.

(* ===================================================================== *)
(** ** [web/src/components/GalleryGrid.tsx] *)
(* ===================================================================== *)

Module GalleryGrid.

Inductive Event :=
| Select (item : Api.MediaItem)
| MouseEnter
| MouseLeave
| MenuClick
| SetQuery
| HandleSearch.

(** The block that shows the match text of a search hit. *)
Definition snippet_block (text : JsString) : VNode Event :=
  El "div" [] [El "p" [] [El "FileText" [] []; El "span" [] [Txt text]]].

Definition is_video (item : Api.MediaItem) : bool :=
  eqb_str (Api.media_type item) (lit "video").

Definition MediaCard (item : Api.MediaItem) (isHovered : bool) : VNode Event :=
  El "div" [OnClick (Select item); OnMouseEnter MouseEnter; OnMouseLeave MouseLeave]
     ([ El "div" []
           ([ El "img" [Src (Api.getThumbnailUrl (Api.id item) 400)] [] ]
            ++ when (isHovered && is_video item)
                 (El "video" [Src (Api.getOriginalUrl (Api.id item))] [])
            ++ [ El "div" [] [] ]
            ++ when (is_video item && negb isHovered)
                 (El "div" [] [El "PlayCircle" [] []; Txt (lit " VIDEO")]));
        El "div" []
           (when (0 <? length (Api.character_tags item))%nat
              (El "div" []
                 (List.map (fun tag => El "span" [] [Txt tag])
                           (firstn 2 (Api.character_tags item))))) ]
      ++ match Api.snippet item with
         | Some text => when (truthy_str text) (snippet_block text)
         | None => []
         end).

Record Props := {
  media : list Api.MediaItem;
  hasMore : bool;
  has_onLoadMore : bool;
  has_onMenuClick : bool
}.

(** The effect on [inView] and [hasMore]: whether [onLoadMore] is called. *)
Definition calls_onLoadMore (props : Props) (inView : bool) : bool :=
  inView && hasMore props && has_onLoadMore props.

(** [hovered item]: the card's own hover state. *)
Definition render (props : Props) (query : JsString)
    (hovered : Api.MediaItem -> bool) : VNode Event :=
  El "div" []
     [ El "div" []
          (when (has_onMenuClick props)
             (El "button" [OnClick MenuClick] [El "Menu" [] []])
           ++ [ El "form" [OnSubmit HandleSearch]
                   [ El "input" [Type_ "text"; Value query; OnChange SetQuery;
                                 Placeholder "Search with AI (e.g. 'sunset at the beach')"] [];
                     El "Search" [] [];
                     El "button" [Type_ "submit"] [Txt (lit "Search")] ] ]);
       El "div" []
          ([ if (length (media props) =? 0)%nat
             then El "div" []
                     [ El "Search" [] [];
                       El "p" [] [Txt (lit "No media found. Try another search.")] ]
             else El "div" []
                     (List.map (fun item => MediaCard item (hovered item)) (media props)) ]
           ++ when (hasMore props && (0 <? length (media props))%nat)
                (El "div" [] [El "Loader2" [] []])) ].

(** A search hit whose match text is the empty string. *)
Definition empty_snippet_item : Api.MediaItem :=
  {| Api.id := 9; Api.file_path := lit "C:/media/silent.mp4";
     Api.media_type := lit "video"; Api.width := None; Api.height := None;
     Api.tags := []; Api.character_tags := []; Api.series_tags := [];
     Api.snippet := Some [] |}.

(** The text a node shows as a snippet, if the node is a snippet block: a
    paragraph made of the [FileText] icon and the text. *)
Definition snippet_text (n : VNode Event) : option JsString :=
  match n with
  | El _ _ [El _ _ [icon; El _ _ [Txt text]]] =>
      if has_tag "FileText" icon then Some text else None
  | _ => None
  end.

(** The snippet texts shown anywhere in a tree. *)
Definition shown_snippets (t : VNode Event) : list JsString :=
  flat_map (fun n => match snippet_text n with Some x => [x] | None => [] end)
           (nodes t).

End GalleryGrid.

(* ===================================================================== *)
(** ** [web/src/app/page.tsx]: the gallery page [Home] *)
(* ===================================================================== *)

Module Home.

Record State := {
  media : list Api.MediaItem;
  selectedItem : option Api.MediaItem;
  loading : bool;
  error : JsString;
  filters : Sidebar.FilterState;
  currentSearch : JsString;
  offset : N;
  hasMore : bool;
  isLoadingMore : bool;
  isSidebarOpen : bool
}.

Definition initial : State :=
  {| media := []; selectedItem := None; loading := true; error := [];
     filters := Sidebar.no_filters; currentSearch := []; offset := 0;
     hasMore := true; isLoadingMore := false; isSidebarOpen := false |}.

Definition setMedia (v : list Api.MediaItem) (st : State) : State :=
  {| media := v; selectedItem := selectedItem st; loading := loading st;
     error := error st; filters := filters st; currentSearch := currentSearch st;
     offset := offset st; hasMore := hasMore st; isLoadingMore := isLoadingMore st;
     isSidebarOpen := isSidebarOpen st |}.

Definition setSelectedItem (v : option Api.MediaItem) (st : State) : State :=
  {| media := media st; selectedItem := v; loading := loading st;
     error := error st; filters := filters st; currentSearch := currentSearch st;
     offset := offset st; hasMore := hasMore st; isLoadingMore := isLoadingMore st;
     isSidebarOpen := isSidebarOpen st |}.

Definition setLoading (v : bool) (st : State) : State :=
  {| media := media st; selectedItem := selectedItem st; loading := v;
     error := error st; filters := filters st; currentSearch := currentSearch st;
     offset := offset st; hasMore := hasMore st; isLoadingMore := isLoadingMore st;
     isSidebarOpen := isSidebarOpen st |}.

Definition setError (v : JsString) (st : State) : State :=
  {| media := media st; selectedItem := selectedItem st; loading := loading st;
     error := v; filters := filters st; currentSearch := currentSearch st;
     offset := offset st; hasMore := hasMore st; isLoadingMore := isLoadingMore st;
     isSidebarOpen := isSidebarOpen st |}.

Definition setFilters (v : Sidebar.FilterState) (st : State) : State :=
  {| media := media st; selectedItem := selectedItem st; loading := loading st;
     error := error st; filters := v; currentSearch := currentSearch st;
     offset := offset st; hasMore := hasMore st; isLoadingMore := isLoadingMore st;
     isSidebarOpen := isSidebarOpen st |}.

Definition setCurrentSearch (v : JsString) (st : State) : State :=
  {| media := media st; selectedItem := selectedItem st; loading := loading st;
     error := error st; filters := filters st; currentSearch := v;
     offset := offset st; hasMore := hasMore st; isLoadingMore := isLoadingMore st;
     isSidebarOpen := isSidebarOpen st |}.

Definition setOffset (v : N) (st : State) : State :=
  {| media := media st; selectedItem := selectedItem st; loading := loading st;
     error := error st; filters := filters st; currentSearch := currentSearch st;
     offset := v; hasMore := hasMore st; isLoadingMore := isLoadingMore st;
     isSidebarOpen := isSidebarOpen st |}.

Definition setHasMore (v : bool) (st : State) : State :=
  {| media := media st; selectedItem := selectedItem st; loading := loading st;
     error := error st; filters := filters st; currentSearch := currentSearch st;
     offset := offset st; hasMore := v; isLoadingMore := isLoadingMore st;
     isSidebarOpen := isSidebarOpen st |}.

Definition setIsLoadingMore (v : bool) (st : State) : State :=
  {| media := media st; selectedItem := selectedItem st; loading := loading st;
     error := error st; filters := filters st; currentSearch := currentSearch st;
     offset := offset st; hasMore := hasMore st; isLoadingMore := v;
     isSidebarOpen := isSidebarOpen st |}.

Definition setIsSidebarOpen (v : bool) (st : State) : State :=
  {| media := media st; selectedItem := selectedItem st; loading := loading st;
     error := error st; filters := filters st; currentSearch := currentSearch st;
     offset := offset st; hasMore := hasMore st; isLoadingMore := isLoadingMore st;
     isSidebarOpen := v |}.

Definition limit : N := 50.

(** [{ ...currentFilters, offset: currentOffset, limit }] *)
Definition load_options (currentOffset : N) (currentFilters : Sidebar.FilterState)
  : Api.FetchOptions :=
  {| Api.opt_limit := Some limit; Api.opt_offset := Some currentOffset;
     Api.opt_character := Sidebar.character currentFilters;
     Api.opt_series := Sidebar.series currentFilters;
     Api.opt_tag := None;
     Api.opt_media_type := Sidebar.media_type currentFilters |}.

Definition loadMedia (currentOffset : N) (currentFilters : Sidebar.FilterState)
    (st : State) : Handler State (list Api.MediaItem) :=
  let call := Api.fetchMedia (load_options currentOffset currentFilters) in
  Await (if (currentOffset =? 0)%N then setLoading true st else setIsLoadingMore true st)
        (request call)
        (fun o s =>
           let s1 :=
             match resume call o with
             | Returned data =>
                 setHasMore (N.of_nat (length data) =? limit)%N
                   (if (currentOffset =? 0)%N then setMedia data s
                    else setMedia (media s ++ data) s)
             | Thrown _ => setError (lit "Failed to load gallery.") s
             end in
           if (currentOffset =? 0)%N then setLoading false s1
           else setIsLoadingMore false s1).

(** The effect on [filters]. *)
Definition on_filters_change (st : State) : Handler State (list Api.MediaItem) :=
  if negb (truthy_str (currentSearch st))
  then loadMedia 0 (filters st) (setOffset 0 st)
  else Done st.

Definition handleLoadMore (st : State) : Handler State (list Api.MediaItem) :=
  if negb (truthy_str (currentSearch st)) && hasMore st
     && negb (loading st) && negb (isLoadingMore st)
  then let nextOffset := (offset st + 50)%N in
       loadMedia nextOffset (filters st) (setOffset nextOffset st)
  else Done st.

(** The three client-side filters applied to search results. *)
Definition by_media_type (f : Sidebar.FilterState) (rs : list Api.MediaItem) :=
  match Sidebar.media_type f with
  | Some v => if truthy_str v
              then List.filter (fun r => eqb_str (Api.media_type r) v) rs else rs
  | None => rs
  end.

Definition by_character (f : Sidebar.FilterState) (rs : list Api.MediaItem) :=
  match Sidebar.character f with
  | Some v => if truthy_str v
              then List.filter (fun r => includes (Api.character_tags r) v) rs else rs
  | None => rs
  end.

Definition by_series (f : Sidebar.FilterState) (rs : list Api.MediaItem) :=
  match Sidebar.series f with
  | Some v => if truthy_str v
              then List.filter (fun r => includes (Api.series_tags r) v) rs else rs
  | None => rs
  end.

Definition handleSearch (query : JsString) (st : State)
  : Handler State (list Api.MediaItem) :=
  let st0 := setCurrentSearch query st in
  if blank query then loadMedia 0 (filters st) (setOffset 0 st0)
  else
    let call := Api.searchMedia query Api.default_top_k in
    Await (setLoading true st0) (request call)
      (fun o s =>
         setLoading false
           match resume call o with
           | Returned results =>
               let filteredResults :=
                 by_series (filters st)
                   (by_character (filters st)
                      (by_media_type (filters st) results)) in
               setHasMore false (setSelectedItem None (setMedia filteredResults s))
           | Thrown _ => setError (lit "Search failed.") s
           end).

(** What the main area shows. *)
Inductive MainView :=
| LoadingView
| ErrorView (message : JsString)
| GridView (props : GalleryGrid.Props).

Definition main_view (st : State) : MainView :=
  if loading st then LoadingView
  else if truthy_str (error st) then ErrorView (error st)
  else GridView {| GalleryGrid.media := media st; GalleryGrid.hasMore := hasMore st;
                   GalleryGrid.has_onLoadMore := true;
                   GalleryGrid.has_onMenuClick := true |}.

(** The item handed to the chat panel, if the panel is mounted. *)
Definition chat_panel (st : State) : option Api.MediaItem := selectedItem st.

(** The grid's load-more effect wired to [handleLoadMore]. *)
Definition on_in_view (inView : bool) (st : State) : Handler State (list Api.MediaItem) :=
  match main_view st with
  | GridView props =>
      if GalleryGrid.calls_onLoadMore props inView then handleLoadMore st else Done st
  | _ => Done st
  end.


Definition sample_video : Api.MediaItem :=
  {| Api.id := 8; Api.file_path := lit "C:/media/clip.mp4";
     Api.media_type := lit "video"; Api.width := None; Api.height := None;
     Api.tags := []; Api.character_tags := []; Api.series_tags := [];
     Api.snippet := Some (lit "a cat jumps") |}.

(** The request of a semantic search for [query]. *)
Definition search_request (query : JsString) : Request :=
  {| method := POST; endpoint := "/gallery/search";
     query := [("query", PStr query); ("top_k", PNum 50)]; body := None |}.

Definition is_search_request (r : Request) : bool :=
  String.eqb (endpoint r) "/gallery/search".

End Home.

(* ===================================================================== *)
(** ** [web/components/gallery/Gallery.tsx]: the react-query gallery *)
(* ===================================================================== *)

Module Gallery.

(** The second component of the query key, read from the URL. *)
Record Key := {
  q : option JsString;
  character : option JsString;
  series : option JsString;
  media_type : option JsString
}.

(** [if (v && v !== 'All') params.set(name, v)] *)
Definition set_unless_all (name : string) (v : option JsString) : list (string * Param) :=
  match v with
  | Some x => if truthy_str x && negb (eqb_str x Sidebar.All) then [(name, PStr x)] else []
  | None => []
  end.

(** The browse request of [fetchGallery], when no query is set. *)
Definition browse (pageParam : N) (key : Key)
  : Call (list Api.MediaItem) (list Api.MediaItem) :=
  {| request := {| method := GET; endpoint := "/api/gallery/";
                   query := [("limit", PStr (lit "50")); ("offset", PNum pageParam)]
                            ++ set_unless_all "character" (character key)
                            ++ set_unless_all "series" (series key)
                            ++ Api.append_str "media_type" (media_type key);
                   body := None |};
     resume := fun o =>
       match o with
       | NetworkError m => Thrown m
       | Response false _ => Thrown (lit "Network response was not ok")
       | Response true j => j
       end |}.

Definition fetchGallery (pageParam : N) (key : Key)
  : Call (list Api.MediaItem) (list Api.MediaItem) :=
  match q key with
  | Some query =>
      if truthy_str query then
        {| request := {| method := POST; endpoint := "/api/gallery/search";
                         query := [("query", PStr query); ("top_k", PNum 50)];
                         body := None |};
           resume := fun o =>
             match o with
             | NetworkError m => Thrown m
             | Response false _ => Thrown (lit "Network response was not ok")
             | Response true (Thrown m) => Thrown m
             | Response true (Returned items) =>
                 if (pageParam =? 0)%N then Returned items else Returned []
             end |}
      else browse pageParam key
  | None => browse pageParam key
  end.

(** [getNextPageParam(lastPage, allPages)]; [None] is [undefined]. *)
Definition getNextPageParam (key : Key) (lastPage : list Api.MediaItem)
    (allPages : list (list Api.MediaItem)) : option N :=
  if truthy_ostr (q key) then None
  else if (length lastPage <? 50)%nat then None
  else Some (N.of_nat (length allPages) * 50)%N.

(** react-query's [hasNextPage]: the last page has a next page parameter.
    With no page loaded yet there is none to ask. *)
Definition hasNextPage (key : Key) (pages : list (list Api.MediaItem)) : bool :=
  match last pages with
  | Some lastPage =>
      match getNextPageParam key lastPage pages with Some _ => true | None => false end
  | None => false
  end.

(** The effect on [inView]: the request [fetchNextPage] sends, if it is
    called. *)
Definition on_in_view (key : Key) (pages : list (list Api.MediaItem)) (inView : bool)
  : list Request :=
  if inView && hasNextPage key pages then
    match last pages with
    | Some lastPage =>
        match getNextPageParam key lastPage pages with
        | Some p => [request (fetchGallery p key)]
        | None => []
        end
    | None => []
    end
  else [].

End Gallery.

(* ===================================================================== *)
(** ** The ingestion and retrieval core behind the API *)
(* ===================================================================== *)

(** The server is not part of [web/]; this module follows the written
    contract: the data model, the scan orchestrator's state machine with
    its per-file unit of work, and the query engine's ranking. *)

Module Backend.

Abbreviation Path := string.

Inductive MediaType := image | video.

Inductive ProcessingStatus := pending | processed | failed.

(** Modelled from the spec: the MediaFile row of the Metadata Store (its
    identity is the absolute path, the key it is stored under). Pixel
    dimensions, duration and ingestion time are left out. *)
Record MediaFile := {
  content_hash : N;
  media_type : MediaType;
  status : ProcessingStatus
}.

(** Modelled from the spec: a Segment, a sub-unit of a MediaFile with its
    own searchable text (a keyframe description or a transcript chunk) and
    optional time offset; the synthetic whole-image Segment has neither. *)
Record Segment := {
  seg_text : option string;
  seg_offset : option N
}.

(** Modelled from the spec: what an EmbeddingRecord belongs to, a Segment
    or, for image-level matching, the MediaFile itself. *)
Inductive Owner :=
| OfSegment (seg : Segment)
| OfMediaFile.

Abbreviation Vector := (list Z).

(** Modelled from the spec: an EmbeddingRecord of the Metadata Store, kept
    under its id, with the MediaFile it is reachable from. *)
Record EmbeddingRecord := {
  rec_file : Path;
  rec_owner : Owner;
  rec_vector : Vector
}.

(** Modelled from the spec: an entry of the Vector Index, kept under the
    id of the metadata row it is keyed to. *)
Record VectorEntry := {
  vec_file : Path;
  vec_vector : Vector
}.

(** Modelled from the spec: the two stores, and the next unused id. *)
Record Stores := {
  media : gmap Path MediaFile;
  records : gmap nat EmbeddingRecord;
  vectors : gmap nat VectorEntry;
  next_id : nat
}.

Definition empty_stores : Stores :=
  {| media := ∅; records := ∅; vectors := ∅; next_id := 0 |}.





(** What the extractors produced for one file: the owner and the vector
    of each record to store. *)
Abbreviation Extracted := (list (Owner * Vector)).












(** *** The scan job *)

Inductive JobState := idle | scanning | completed | error.

(** Modelled from the spec: the process-wide ScanJob. *)
Record ScanJob := {
  state : JobState;
  current_file : option Path;
  processed_count : nat;
  total_files : nat;
  started_at : N;
  error_message : option string
}.


(** Modelled from the spec: a job is active while it is scanning. *)
Definition is_active (j : ScanJob) : bool :=
  match state j with scanning => true | _ => false end.

(** Modelled from the spec: the server's unit of work in progress on one
    file, under the write-ahead discipline: the file, the first id given
    to its new records, what was extracted, and which of the two stores
    has been written. The file's row is marked [pending] for its length. *)
Record Writing := {
  w_file : Path;
  w_base : nat;
  w_data : Extracted;
  w_vectors_done : bool;
  w_records_done : bool
}.

Record System := {
  job : ScanJob;
  stores : Stores;
  queue : list Path;            (* files still to visit, in traversal order *)
  force_reprocess : bool;
  writing : option Writing
}.


Inductive FsOp := Traverse (target : Path).

Inductive StartResult :=
| Started (sys : System)
| JobAlreadyRunning
| InvalidPath.

Section Orchestrator.

(** The file system: the media files below a folder, in traversal order
    ([None]: the path is invalid or inaccessible), and a file's content
    hash and media type. *)
Context (walk : Path → option (list Path)).
Context (hash_of : Path → N) (type_of : Path → MediaType).

(** Modelled from the spec: the transition idle → scanning, which requires
    that no job is active and otherwise fails with JobAlreadyRunning and
    performs no filesystem work; an invalid target path fails before any
    state transition. The second component lists the filesystem work. *)
Definition start_scan (target : Path) (force : bool) (now : N) (sys : System)
  : StartResult * list FsOp :=
  if is_active (job sys) then (JobAlreadyRunning, [])
  else
    match walk target with
    | None => (InvalidPath, [Traverse target])
    | Some files =>
        (Started {| job := {| state := scanning; current_file := None;
                              processed_count := 0; total_files := length files;
                              started_at := now; error_message := None |};
                    stores := stores sys; queue := files;
                    force_reprocess := force; writing := None |},
         [Traverse target])
    end.




(** Modelled from the spec: the successor states of the steps of the scan
    orchestrator (section 4.3), which is not part of [web/]. *)












End Orchestrator.

(** *** The query engine *)

(** Modelled from the spec: a retrieved EmbeddingRecord, its id and its
    similarity to the query. *)
Record Hit := { hit_id : nat; hit_score : Z }.

(** Modelled from the spec: one entry of the query engine's result list,
    the MediaFile, the score, and the snippet if there is one. *)
Record SearchItem := {
  item_file : Path;
  item_score : Z;
  item_snippet : option string
}.

(** Modelled from the spec: step 4 of the search. The text of the Segment
    the record belongs to, if it belongs to a Segment that has text; an
    image-level record, owned by the MediaFile itself, gives none. *)
Definition snippet_of (r : EmbeddingRecord) : option string :=
  match rec_owner r with
  | OfSegment seg => seg_text seg
  | OfMediaFile => None
  end.

(** Modelled from the spec: the record belongs to a Segment with text. *)
Definition of_text_segment (r : EmbeddingRecord) : Prop :=
  ∃ seg text, rec_owner r = OfSegment seg ∧ seg_text seg = Some text.

(** Modelled from the spec: step 3, the join of a hit with its record and
    the MediaFile that owns it. *)
Definition to_item (s : Stores) (h : Hit) : option SearchItem :=
  match records s !! hit_id h with
  | Some r =>
      match media s !! rec_file r with
      | Some _ => Some {| item_file := rec_file r; item_score := hit_score h;
                          item_snippet := snippet_of r |}
      | None => None
      end
  | None => None
  end.

(** Modelled from the spec: step 3, no MediaFile twice. Of two items of the
    same file the one with the higher score stays. *)
Fixpoint insert_best (it : SearchItem) (acc : list SearchItem) : list SearchItem :=
  match acc with
  | [] => [it]
  | a :: rest =>
      if String.eqb (item_file a) (item_file it)
      then (if (item_score a <? item_score it)%Z then it :: rest else a :: rest)
      else a :: insert_best it rest
  end.

Definition keep_best (items : list SearchItem) : list SearchItem :=
  fold_left (λ acc it, insert_best it acc) items [].

(** Modelled from the spec: step 5, descending score, ties by MediaFile
    identity. *)
Definition ranks_before (a b : SearchItem) : Prop :=
  (item_score b < item_score a)%Z
  ∨ (item_score a = item_score b ∧ String.leb (item_file a) (item_file b) = true).

#[global] Instance ranks_before_dec a b : Decision (ranks_before a b).
Proof. unfold ranks_before. apply _. Defined.

Definition scores_before (a b : Hit) : Prop := (hit_score b ≤ hit_score a)%Z.

#[global] Instance scores_before_dec a b : Decision (scores_before a b).
Proof. unfold scores_before. apply _. Defined.

Section QueryEngine.

(** The similarity of a stored vector to the encoded query text. *)
Context (similarity : Vector → Z).

(** Modelled from the spec: step 2, the [top_k] nearest entries of the
    Vector Index, one pool for images, descriptions and transcripts. *)
Definition retrieve (top_k : nat) (s : Stores) : list Hit :=
  take top_k
    (merge_sort scores_before
       ((λ kv, {| hit_id := kv.1; hit_score := similarity (vec_vector kv.2) |})
          <$> map_to_list (vectors s))).

(** Modelled from the spec: [search(query_text, top_k)], steps 2 to 5. *)
Definition search (top_k : nat) (s : Stores) : list SearchItem :=
  merge_sort ranks_before (keep_best (omap (to_item s) (retrieve top_k s))).

End QueryEngine.

(** Modelled from the spec: what [POST /gallery/search] hands to the
    client for an item. The snippet field is there exactly when the item
    has a snippet. *)
Definition snippet_field (it : SearchItem) : option JsString :=
  lit <$> item_snippet it.

(** *** A sample run

    One image below [/media]; the process dies after the vectors of the
    image were written and before its records were. *)

Definition sample_file : Path := "/media/a.png".

Definition sample_walk (target : Path) : option (list Path) := Some [sample_file].




Definition sample_started : System :=
  {| job := {| state := scanning; current_file := None; processed_count := 0;
               total_files := 1; started_at := 0; error_message := None |};
     stores := empty_stores; queue := [sample_file]; force_reprocess := false;
     writing := None |}.





(** *** What holds between the steps of a unit of work *)




End Backend.

(* ===================================================================== *)
(** ** [web/components/layout/Sidebar.tsx]: the sidebar of the older layout *)
(* ===================================================================== *)

Module LayoutSidebar.

(** A [URLSearchParams]: its name-value pairs, in order. *)
Abbreviation Params := (list (string * JsString)).

(** [params.get(name)]: the first value under [name]; [None] is [null]. *)
Fixpoint get (name : string) (params : Params) : option JsString :=
  match params with
  | [] => None
  | (k, v) :: rest => if String.eqb k name then Some v else get name rest
  end.

(** [params.delete(name)]: every pair under [name] goes. *)
Definition delete (name : string) (params : Params) : Params :=
  List.filter (fun kv => negb (String.eqb (fst kv) name)) params.

(** [params.set(name, value)]: the first pair under [name] takes the
    value and the others under it go; with no such pair one is appended. *)
Fixpoint set (name : string) (value : JsString) (params : Params) : Params :=
  match params with
  | [] => [(name, value)]
  | (k, v) :: rest =>
      if String.eqb k name then (name, value) :: delete name rest
      else (k, v) :: set name value rest
  end.

(** [handleSearch]: the parameters pushed to the router, built from a copy
    of the current ones. *)
Definition handleSearch (query : JsString) (searchParams : Params) : Params :=
  if truthy_str query then set "q" query searchParams
  else delete "q" searchParams.

(** [updateFilter(key, value)]: the parameters pushed to the router. *)
Definition updateFilter (key : string) (value : JsString) (searchParams : Params)
  : Params :=
  if truthy_str value && negb (eqb_str value Sidebar.All)
  then set key value searchParams
  else delete key searchParams.

Record State := {
  query : JsString;
  character : JsString;
  series : JsString
}.

(** [x || d] for what [get] returns. *)
Definition str_or (x : option JsString) (d : JsString) : JsString :=
  match x with
  | Some v => if truthy_str v then v else d
  | None => d
  end.

(** The effect on [searchParams]: the form follows the URL. *)
Definition on_searchParams (searchParams : Params) : State :=
  {| query := str_or (get "q" searchParams) [];
     character := str_or (get "character" searchParams) Sidebar.All;
     series := str_or (get "series" searchParams) Sidebar.All |}.

(** The lists of known characters and series. *)
Record Filters := { characters : list JsString; series_list : list JsString }.

(** [fetchFilters] of this sidebar: a response that is not ok gives empty
    lists instead of an error. *)
Definition fetchFilters : Call Filters Filters :=
  {| request := {| method := GET; endpoint := "/api/gallery/filters";
                   Http.query := []; body := None |};
     resume := fun o =>
       match o with
       | NetworkError m => Thrown m
       | Response false _ => Returned {| characters := []; series_list := [] |}
       | Response true j => j
       end |}.

(** What [GalleryContent] reads from the URL for its query key. *)
Definition key_of (searchParams : Params) : Gallery.Key :=
  {| Gallery.q := get "q" searchParams;
     Gallery.character := get "character" searchParams;
     Gallery.series := get "series" searchParams;
     Gallery.media_type := get "media_type" searchParams |}.

(** [data?.pages.flat()]: the items of all loaded pages. *)
Definition items (pages : list (list Api.MediaItem)) : list Api.MediaItem :=
  List.concat pages.

End LayoutSidebar.

(* ===================================================================== *)
(** ** Reading handlers and rendered trees *)
(* ===================================================================== *)

Module Views.

(** The state a handler leaves when it returns or reaches its [await]. *)
Definition at_await {S B} (h : Handler S B) : S :=
  match h with Done st => st | Await st _ _ => st end.

(** [P] survives the handler: its synchronous part and its continuation,
    whatever the outcome and whatever state the continuation finds. *)
Definition preserves {S B} (P : S -> Prop) (st : S) (h : Handler S B) : Prop :=
  (P st -> P (at_await h))
  /\ match h with
     | Done _ => True
     | Await _ _ k => forall o s, P s -> P (k o s)
     end.

(** The message a node of the scan panel shows as a failed start, if the
    node is that banner: the [AlertTriangle] icon and the message. *)
Definition start_error_shown (n : VNode ScanUI.Event) : option JsString :=
  match n with
  | El _ _ [icon; El _ _ [Txt msg]] =>
      if has_tag "AlertTriangle" icon then Some msg else None
  | _ => None
  end.

Definition shown_start_errors (t : VNode ScanUI.Event) : list JsString :=
  flat_map (fun n => match start_error_shown n with Some m => [m] | None => [] end)
           (nodes t).

(** The submit button of the chat form. *)
Definition is_submit (n : VNode ChatPanel.Event) : bool :=
  has_tag "button" n
  && existsb (fun a => match a with Type_ t => String.eqb t "submit" | _ => false end)
             (attrs_of n).

(** The tree contains the text [s]. *)
Definition shows_text {H} (s : JsString) (t : VNode H) : bool :=
  existsb (fun n => match n with Txt x => eqb_str x s | _ => false end) (nodes t).

(** The item a node selects when clicked, if it is a card. *)
Definition card_item (n : VNode GalleryGrid.Event) : option Api.MediaItem :=
  match List.find (fun a => match a with OnClick (GalleryGrid.Select _) => true
                                   | _ => false end) (attrs_of n) with
  | Some (OnClick (GalleryGrid.Select item)) => Some item
  | _ => None
  end.

(** The items of the cards of a tree, in document order. *)
Definition card_items (t : VNode GalleryGrid.Event) : list Api.MediaItem :=
  flat_map (fun n => match card_item n with Some i => [i] | None => [] end)
           (nodes t).

(** The text of a tag chip: a [span] that holds one text. *)
Definition chip_text (n : VNode GalleryGrid.Event) : option JsString :=
  match n with
  | El tag _ [Txt x] => if String.eqb tag "span" then Some x else None
  | _ => None
  end.

(** The tags a row of chips shows: a non-empty element whose children are
    all chips. *)
Definition chip_row (n : VNode GalleryGrid.Event) : list JsString :=
  match n with
  | El _ _ (c :: cs) =>
      if forallb (fun x => match chip_text x with Some _ => true | None => false end)
                 (c :: cs)
      then flat_map (fun x => match chip_text x with Some t => [t] | None => [] end)
                    (c :: cs)
      else []
  | _ => []
  end.

(** The character tags a card shows. *)
Definition shown_tags (t : VNode GalleryGrid.Event) : list JsString :=
  flat_map chip_row (nodes t).

(** The card plays the video preview. *)
Definition plays_video (t : VNode GalleryGrid.Event) : bool :=
  existsb (has_tag "video") (nodes t).

(** The card shows the VIDEO badge. *)
Definition has_badge (t : VNode GalleryGrid.Event) : bool :=
  existsb (has_tag "PlayCircle") (nodes t).

(** The grid shows the sentinel whose coming into view loads more. *)
Definition has_sentinel (t : VNode GalleryGrid.Event) : bool :=
  existsb (has_tag "Loader2") (nodes t).

(** A handler of the gallery page keeps the list on failure: when its
    request fails, its continuation leaves the list it finds as it is and
    leaves an error message. *)
Definition keeps_list_on_failure (h : Handler Home.State (list Api.MediaItem)) : Prop :=
  match h with
  | Done _ => True
  | Await _ _ k =>
      forall o s, ChatPanel.failed o = true ->
                  Home.media (k o s) = Home.media s
                  /\ truthy_str (Home.error (k o s)) = true
  end.

(** The page holds an error message. *)
Definition has_error (s : Home.State) : Prop := truthy_str (Home.error s) = true.

(** A query parameter or body field that JavaScript treats as true. *)
Definition truthy_param (p : Param) : bool :=
  match p with
  | PStr s => truthy_str s
  | PNum n => negb (n =? 0)%N
  | PBool b => b
  end.

End Views.

(* ===================================================================== *)
(** * Properties *)
(* ===================================================================== *)

(** ** Strings: [trim] *)

Module StringFacts.

Lemma trim_start_nil s : trim_start s = [] <-> forallb is_white_space s = true.
Proof.
  induction s as [|c r IH]; simpl; [tauto|].
  destruct (is_white_space c); simpl; [exact IH|].
  split; discriminate.
Qed.

Lemma trim_start_head s c r : trim_start s = c :: r -> is_white_space c = false.
Proof.
  induction s as [|d t IH]; simpl; [discriminate|].
  destruct (is_white_space d) eqn:E; [exact IH|].
  intros [= <- _]. exact E.
Qed.

Lemma forallb_rev {A} (p : A -> bool) l : forallb p (rev l) = forallb p l.
Proof.
  induction l as [|a l IH]; simpl; [reflexivity|].
  rewrite forallb_app, IH. simpl. rewrite andb_true_r. apply andb_comm.
Qed.

(** A string trimmed at the start is blank only if it is empty. *)
Lemma forallb_trim_start s :
  forallb is_white_space (trim_start s) = forallb is_white_space s.
Proof.
  induction s as [|c r IH]; simpl; [reflexivity|].
  destruct (is_white_space c) eqn:E; simpl; [exact IH|].
  now rewrite E.
Qed.

Lemma trim_nil s : trim s = [] <-> forallb is_white_space s = true.
Proof.
  unfold trim, trim_end. rewrite <- forallb_trim_start, <- forallb_rev.
  rewrite <- trim_start_nil.
  split; intros H.
  - apply (f_equal (@rev N)) in H. now rewrite rev_involutive in H.
  - now rewrite H.
Qed.

(** [!s.trim()] holds exactly of the strings made of white space only,
    the empty string among them. *)
Lemma blank_spec s : blank s = forallb is_white_space s.
Proof.
  unfold blank. destruct (forallb is_white_space s) eqn:E.
  - apply trim_nil in E. now rewrite E.
  - destruct (trim s) eqn:T; [|reflexivity].
    apply trim_nil in T. congruence.
Qed.

(** A trimmed string is blank only if the string was. *)
Lemma blank_trim s : blank (trim s) = blank s.
Proof.
  rewrite !blank_spec. destruct (forallb is_white_space s) eqn:E.
  - apply trim_nil in E. now rewrite E.
  - unfold trim, trim_end. rewrite forallb_rev.
    destruct (trim_start (rev (trim_start s))) as [|c r] eqn:T.
    + apply trim_start_nil in T.
      rewrite forallb_rev, forallb_trim_start in T. congruence.
    + simpl. now rewrite (trim_start_head _ _ _ T).
Qed.

End StringFacts.

(** ** Numbers: comparison facts behind [Math.min] and [Math.max] *)

Module NumberFacts.

Lemma SFcompare_antisym x y :
  SFcompare y x = option_map CompOpp (SFcompare x y).
Proof.
  destruct x as [sx|sx| |sx mx ex], y as [sy|sy| |sy my ey]; simpl;
    try reflexivity;
    try (destruct sx; reflexivity); try (destruct sy; reflexivity);
    try (destruct sx, sy; reflexivity).
  destruct sx, sy; simpl; try reflexivity;
    rewrite (Z.compare_antisym ex ey); destruct (ex ?= ey)%Z; simpl;
    try reflexivity;
    rewrite (Pos.compare_cont_antisym mx my Eq); reflexivity.
Qed.

Lemma SFcompare_refl x : sf_is_nan x = false -> SFcompare x x = Some Eq.
Proof.
  destruct x as [s|s| |s m e]; simpl; try discriminate; intros _.
  - reflexivity.
  - destruct s; reflexivity.
  - destruct s; rewrite Z.compare_refl, Pos.compare_cont_refl; reflexivity.
Qed.

Lemma SFcompare_total x y :
  sf_is_nan x = false -> sf_is_nan y = false ->
  exists c, SFcompare x y = Some c.
Proof.
  destruct x, y; simpl; try discriminate; intros _ _; eauto.
Qed.

Lemma is_nan_spec x : PrimFloat.is_nan x = sf_is_nan (Prim2SF x).
Proof.
  unfold PrimFloat.is_nan. rewrite FloatAxioms.eqb_spec. unfold SFeqb.
  destruct (sf_is_nan (Prim2SF x)) eqn:E.
  - destruct (Prim2SF x); try discriminate. reflexivity.
  - rewrite (SFcompare_refl _ E). reflexivity.
Qed.

Lemma ltb_leb a b : PrimFloat.ltb a b = true -> PrimFloat.leb a b = true.
Proof.
  rewrite ltb_spec, leb_spec. unfold SFltb, SFleb.
  destruct (SFcompare _ _) as [[]|]; congruence.
Qed.

Lemma not_ltb_leb a b :
  PrimFloat.is_nan a = false -> PrimFloat.is_nan b = false ->
  PrimFloat.ltb a b = false -> PrimFloat.leb b a = true.
Proof.
  rewrite !is_nan_spec, ltb_spec, leb_spec. unfold SFltb, SFleb.
  intros Ha Hb. rewrite (SFcompare_antisym (Prim2SF a) (Prim2SF b)).
  destruct (SFcompare_total _ _ Ha Hb) as [c ->].
  destruct c; simpl; congruence.
Qed.

Lemma eqb_not_ltb a b :
  PrimFloat.eqb a b = true ->
  PrimFloat.ltb a b = false /\ PrimFloat.ltb b a = false.
Proof.
  rewrite FloatAxioms.eqb_spec, !ltb_spec. unfold SFeqb, SFltb.
  rewrite (SFcompare_antisym (Prim2SF a) (Prim2SF b)).
  destruct (SFcompare _ _) as [[]|]; simpl; try discriminate. auto.
Qed.

Lemma truthy_num_not_nan x : truthy_num x = true -> PrimFloat.is_nan x = false.
Proof.
  unfold truthy_num. destruct (PrimFloat.is_nan x); simpl; congruence.
Qed.

Lemma num_or_not_nan x d :
  PrimFloat.is_nan d = false -> PrimFloat.is_nan (num_or x d) = false.
Proof.
  intros Hd. destruct x as [v|]; simpl; [|exact Hd].
  destruct (truthy_num v) eqn:E; [|exact Hd].
  now apply truthy_num_not_nan.
Qed.

(** [Math.max(0, v)] of a number that is not [NaN] is a number at least 0. *)
Lemma Math_max_0 v :
  PrimFloat.is_nan v = false ->
  PrimFloat.is_nan (Math_max 0 v) = false /\ PrimFloat.leb 0 (Math_max 0 v) = true.
Proof.
  intros Hv. unfold Math_max. rewrite Hv.
  change (PrimFloat.is_nan 0) with false. simpl.
  destruct (PrimFloat.ltb 0 v) eqn:E1.
  - split; [exact Hv | now apply ltb_leb].
  - destruct (PrimFloat.ltb v 0); [now split|].
    change (is_neg_zero 0) with false. now split.
Qed.

(** [Math.min(100, m)] of a number at least 0 lies between 0 and 100. *)
Lemma Math_min_100 m :
  PrimFloat.is_nan m = false -> PrimFloat.leb 0 m = true ->
  PrimFloat.leb 0 (Math_min 100 m) = true /\ PrimFloat.leb (Math_min 100 m) 100 = true.
Proof.
  intros Hm H0. unfold Math_min. rewrite Hm.
  change (PrimFloat.is_nan 100) with false. simpl.
  destruct (PrimFloat.ltb 100 m) eqn:E1; [now split|].
  assert (Hle : PrimFloat.leb m 100 = true) by now apply not_ltb_leb.
  destruct (PrimFloat.ltb m 100); [now split|].
  change (is_neg_zero 100) with false. now split.
Qed.

(** [x || 0] changes nothing under [Math.max(0, _)], unless [x] is [NaN]. *)
Lemma Math_max_0_num_or x :
  PrimFloat.is_nan x = false ->
  Math_max 0 (num_or (Some x) 0) = Math_max 0 x.
Proof.
  intros Hx. simpl. unfold truthy_num. rewrite Hx. simpl.
  destruct (PrimFloat.is_zero x) eqn:Ez; simpl; [|reflexivity].
  unfold PrimFloat.is_zero, PrimFloat.zero in Ez.
  apply eqb_not_ltb in Ez as [E1 E2].
  unfold Math_max. rewrite Hx, E1, E2.
  reflexivity.
Qed.

End NumberFacts.

(** ** Rendered trees: selecting nodes *)

Module DomFacts.


Lemma nodes_child {H} (t c n : VNode H) :
  In c (children_of t) -> In n (nodes c) -> In n (nodes t).
Proof.
  destruct t as [| |tag attrs cs]; simpl; try tauto.
  intros Hc Hn. right. apply in_flat_map. eauto.
Qed.

Lemma select_In {H} (p : VNode H -> bool) t n :
  In n (select p t) <-> In n (nodes t) /\ p n = true.
Proof. unfold select. apply filter_In. Qed.

Lemma select_nil {H} (p : VNode H -> bool) t :
  select p t = [] -> forall n, In n (nodes t) -> p n = false.
Proof.
  intros E n Hn. destruct (p n) eqn:Hp; [|reflexivity].
  assert (Hin : In n (select p t)) by now apply select_In.
  rewrite E in Hin. destruct Hin.
Qed.

End DomFacts.

Module ScanUIFacts.
Import ScanUI DomFacts.

Section WithOps.
Context (ops : NumberOps).

Ltac split_state st :=
  let p := fresh "p" in let f := fresh "f" in let s := fresh "s" in
  let e := fresh "e" in let g := fresh "g" in
  destruct st as [p f s e g];
  destruct s as [[a cf pp pc tf eta [[|? ?]|]]|]; [destruct a, pp as [x|] ..| ];
  destruct e as [|? ?], g;
  unfold select, render, start_error_banner, scan_error_banner, start_button,
    progress_view, percent_label, when, field, active;
  cbn [ScanUI.status ScanUI.error ScanUI.starting ScanUI.path
       ScanUI.forceReprocess Api.is_active Api.error Api.progress_percent
       Api.current_file Api.processed_count Api.total_files Api.eta_seconds
       truthy_str negb];
  try match goal with |- context [toFixed ops ?x ?d] => destruct (toFixed ops x d) end.

(** The only element with a [style.width] is the fill of the progress bar,
    and it is there exactly while a scan is active. *)
Lemma select_width st :
  select has_width (render ops st)
  = if active (status st)
    then [El "div" [StyleWidthPercent (fill_width (status st))] []]
    else [].
Proof. split_state st; reflexivity. Qed.

(** The only element that starts a scan is the Start button, and it is
    there exactly while no scan is active. *)
Lemma select_starts_scan st :
  select starts_scan (render ops st)
  = if active (status st) then [] else [start_button st].
Proof. split_state st; reflexivity. Qed.

(** The inputs are the path field and the force-reprocess checkbox. *)
Lemma select_inputs st :
  select (has_tag "input") (render ops st)
  = [ El "input" [Type_ "text"; Value (path st); OnChange SetPath;
                  Placeholder "Enter directory path...";
                  Disabled (active (status st))] [];
      El "input" [Type_ "checkbox"; Id "forceReprocess";
                  Checked (forceReprocess st); OnChange SetForceReprocess;
                  Disabled (active (status st))] [] ].
Proof. split_state st; reflexivity. Qed.

(** The spinner and the fill are there exactly while a scan is active. *)
Lemma select_shows_progress st :
  select shows_progress (render ops st)
  = if active (status st)
    then [El "RefreshCw" [] [];
          El "div" [StyleWidthPercent (fill_width (status st))] []]
    else [].
Proof. split_state st; reflexivity. Qed.

(** The background error banner shows the reported message, and is there
    exactly when a non-empty message is reported. *)
Lemma shown_scan_errors_render st :
  shown_scan_errors (render ops st)
  = match reported_error (status st) with Some msg => [msg] | None => [] end.
Proof. unfold shown_scan_errors, reported_error. split_state st; reflexivity. Qed.

(** While a scan is active the progress view is the last child. *)
Lemma render_active st :
  active (status st) = true ->
  In (progress_view ops (status st)) (children_of (render ops st)).
Proof.
  intros Ha. unfold render. rewrite Ha. cbn [negb children_of].
  apply in_or_app. right. apply in_or_app. right. apply in_or_app. right.
  now left.
Qed.

(** What the progress view shows: the file, the percentage, the counts
    and the time left. *)
Lemma progress_view_shows status :
  let shown := nodes (progress_view ops status) in
  In (Txt (scanning_label status)) shown
  /\ In (percent_label ops status) shown
  /\ In (NumTxt (num_or (field Api.processed_count status) 0)) shown
  /\ In (NumTxt (num_or (field Api.total_files status) 0)) shown
  /\ In (Txt (formatETA ops (field Api.eta_seconds status))) shown.
Proof.
  cbn -[scanning_label percent_label num_or formatETA lit In].
  assert (Hp : nodes (percent_label ops status)
               = percent_label ops status :: []).
  { unfold percent_label. destruct (field Api.progress_percent status); [|reflexivity].
    now destruct (truthy_str _). }
  rewrite Hp. cbn -[scanning_label percent_label num_or formatETA lit].
  intuition.
Qed.

Lemma fill_width_within status : within_0_100 (fill_width status).
Proof.
  unfold fill_width, within_0_100.
  pose proof (NumberFacts.num_or_not_nan (field Api.progress_percent status) 0 eq_refl) as Hn.
  destruct (NumberFacts.Math_max_0 _ Hn) as [Hm H0].
  now apply NumberFacts.Math_min_100.
Qed.

Lemma fill_width_clamped status :
  percent_is_json_number status ->
  fill_width status = clamped_percent (field Api.progress_percent status).
Proof.
  unfold fill_width, clamped_percent, percent_is_json_number.
  destruct (field Api.progress_percent status) as [x|]; [|reflexivity].
  intros H. now rewrite NumberFacts.Math_max_0_num_or by now apply H.
Qed.

(** C10. For every scan status, the width of the progress bar's fill is
    [Math.min(100, Math.max(0, progress_percent || 0))]: while a scan is
    active the fill is rendered with that width; any element that carries
    a width carries one between 0 and 100, whatever the reported
    percentage (negative, above 100, or missing); and that width is
    min(100, max(0, progress_percent)), with 0 for a missing percentage,
    for every percentage JSON can carry. *)
Theorem progress_fill_width_clamped st :
  (active (status st) = true ->
   exists n, In n (nodes (render ops st))
             /\ width_percent n = Some (fill_width (status st)))
  /\ (forall n w, In n (nodes (render ops st)) -> width_percent n = Some w ->
      within_0_100 w
      /\ (percent_is_json_number (status st) ->
          w = clamped_percent (field Api.progress_percent (status st)))).
Proof.
  split.
  - intros Ha.
    exists (El "div" [StyleWidthPercent (fill_width (status st))] []).
    split; [|reflexivity].
    apply (select_In has_width). rewrite select_width, Ha. now left.
  - intros n w Hn Hw.
    assert (Hs : In n (select has_width (render ops st))).
    { apply select_In. split; [exact Hn|]. unfold has_width. now rewrite Hw. }
    rewrite select_width in Hs.
    destruct (active (status st)); [|destruct Hs].
    destruct Hs as [<-|[]]. cbn in Hw. injection Hw as <-.
    split; [apply fill_width_within | apply fill_width_clamped].
Qed.

End WithOps.

(** C10 at a status that reports 250 percent: the fill is 100 wide. *)
Lemma progress_fill_width_clamped_witness :
  let st := sample_state [] (Some (sample_status true (Some 250%float) None)) in
  exists n, In n (nodes (render sample_ops st))
            /\ width_percent n = Some 100%float
            /\ within_0_100 100
            /\ 100%float = clamped_percent (Some 250%float).
Proof.
  intros st.
  destruct (progress_fill_width_clamped sample_ops st) as [Hex Hall].
  destruct (Hex eq_refl) as [n [Hn Hw]].
  exists n. split; [exact Hn|]. split; [exact Hw|].
  destruct (Hall n _ Hn Hw) as [Hr Hc]. split; [exact Hr|].
  apply Hc. intros x Hx. injection Hx as <-. reflexivity.
Defined.

End ScanUIFacts.

(** ** The two stores under the per-file unit of work *)

Module BackendFacts.
Import Backend.

(** Facts about delete-then-insert that hold alike for the records of the
    Metadata Store and the entries of the Vector Index. *)
Section Replace.

Context {E : Type} (owner : E → Path).






End Replace.








Section Preservation.

Context (walk : Path → option (list Path)).
Context (hash_of : Path → N) (type_of : Path → MediaType).





End Preservation.



End BackendFacts.

(** ** The scan panel against the scan job *)

Module ScanClaims.
Import ScanUI DomFacts ScanUIFacts.

(** C2. At most one scan is active. On the server, a start while the
    single scan job is active fails with JobAlreadyRunning: it yields no
    successor state (nothing is queued, the running job is not replaced)
    and does no filesystem work. In the client, for every status with
    [is_active = true], no element starts a scan (the Start button is not
    rendered) and the path field and the force-reprocess checkbox, the only
    inputs, are rendered disabled. *)
Theorem one_scan_at_a_time :
  (forall walk target force now sys,
      Backend.is_active (Backend.job sys) = true ->
      Backend.start_scan walk target force now sys = (Backend.JobAlreadyRunning, [])
      /\ forall sys', (Backend.start_scan walk target force now sys).1
                      <> Backend.Started sys')
  /\ (forall ops st,
        active (status st) = true ->
        select starts_scan (render ops st) = []
        /\ (exists field_ box,
              select (has_tag "input") (render ops st) = [field_; box]
              /\ In (OnChange SetPath) (attrs_of field_)
              /\ In (OnChange SetForceReprocess) (attrs_of box))
        /\ (forall n, In n (nodes (render ops st)) -> has_tag "input" n = true ->
                      is_disabled n = true)).
Proof.
  split.
  - intros walk target force now sys Ha. unfold Backend.start_scan. rewrite Ha.
    split; [reflexivity|]. intros sys'. simpl. discriminate.
  - intros ops st Ha. split; [|split].
    + now rewrite select_starts_scan, Ha.
    + do 2 eexists. split; [apply select_inputs|]. simpl. tauto.
    + intros n Hn Ht.
      assert (Hs : In n (select (has_tag "input") (render ops st)))
        by now apply select_In.
      rewrite select_inputs, Ha in Hs.
      destruct Hs as [<-|[<-|[]]]; reflexivity.
Qed.

(** C2 on the sample run and on a panel that shows a running scan. *)
Lemma one_scan_at_a_time_witness :
  Backend.start_scan Backend.sample_walk "/other" true 5%N Backend.sample_started
  = (Backend.JobAlreadyRunning, [])
  /\ select starts_scan
       (render sample_ops
          (sample_state (lit "/media") (Some (sample_status true (Some 40%float) None))))
     = [].
Proof.
  destruct one_scan_at_a_time as [Hserver Hclient]. split.
  - now apply Hserver.
  - now apply Hclient.
Defined.

(** C3, with a failed scan read as [status.error] holding a non-empty
    message. For every status the panel shows which of the states holds. No scan active: the Start button and nothing of the progress
    view. Scan active: the progress view, with the current file, the
    percentage, the counts and the time left, and no Start button. Scan
    failed, that is [status.error] a non-empty message: the error banner
    with that message, whatever else is shown; with no message or an empty
    one there is no banner. Two states that differ in activity or in the
    reported error never render alike. *)
Theorem scan_states_are_told_apart ops st :
  (active (status st) = false ->
   select starts_scan (render ops st) = [start_button st]
   /\ select shows_progress (render ops st) = [])
  /\ (active (status st) = true ->
      In (progress_view ops (status st)) (children_of (render ops st))
      /\ (let shown := nodes (progress_view ops (status st)) in
          In (Txt (scanning_label (status st))) shown
          /\ In (percent_label ops (status st)) shown
          /\ In (NumTxt (num_or (field Api.processed_count (status st)) 0)) shown
          /\ In (NumTxt (num_or (field Api.total_files (status st)) 0)) shown
          /\ In (Txt (formatETA ops (field Api.eta_seconds (status st)))) shown)
      /\ select starts_scan (render ops st) = [])
  /\ (forall msg, field Api.error (status st) = Some msg -> msg <> [] ->
      shown_scan_errors (render ops st) = [msg])
  /\ (field Api.error (status st) = None \/ field Api.error (status st) = Some [] ->
      shown_scan_errors (render ops st) = [])
  /\ (forall st', render ops st = render ops st' ->
      active (status st) = active (status st')
      /\ reported_error (status st) = reported_error (status st')).
Proof.
  split; [|split; [|split; [|split]]].
  - intros Ha. now rewrite select_starts_scan, select_shows_progress, Ha.
  - intros Ha. split; [now apply render_active|].
    split; [apply progress_view_shows|].
    now rewrite select_starts_scan, Ha.
  - intros msg Hm Hne. rewrite shown_scan_errors_render. unfold reported_error.
    rewrite Hm. destruct msg; [congruence|reflexivity].
  - intros H. rewrite shown_scan_errors_render. unfold reported_error.
    destruct H as [-> | ->]; reflexivity.
  - intros st' E. split.
    + pose proof (select_starts_scan ops st) as H1.
      pose proof (select_starts_scan ops st') as H2.
      rewrite E, H2 in H1.
      destruct (active (status st)), (active (status st')); congruence.
    + pose proof (shown_scan_errors_render ops st) as H1.
      pose proof (shown_scan_errors_render ops st') as H2.
      rewrite E, H2 in H1.
      destruct (reported_error (status st)), (reported_error (status st'));
        congruence.
Qed.

(** C3 on a failed scan that reports "disk full". *)
Lemma scan_states_are_told_apart_witness :
  shown_scan_errors
    (render sample_ops
       (sample_state [] (Some (sample_status false None (Some (lit "disk full"))))))
  = [lit "disk full"]
  /\ select shows_progress
       (render sample_ops
          (sample_state [] (Some (sample_status false None (Some (lit "disk full"))))))
     = [].
Proof.
  destruct (scan_states_are_told_apart sample_ops
              (sample_state [] (Some (sample_status false None (Some (lit "disk full"))))))
    as (Hidle & _ & Hfailed & _).
  split.
  - apply Hfailed; [reflexivity|discriminate].
  - now apply Hidle.
Defined.

(** C3 does not hold where [status.error] is set to the empty string:
    the panel shows no banner, and a running scan that reports it renders
    exactly like one that reports no error. *)
Lemma empty_error_shows_no_banner :
  Api.error (sample_status true (Some 40%float) (Some [])) = Some []
  /\ shown_scan_errors
       (render sample_ops
          (sample_state [] (Some (sample_status true (Some 40%float) (Some [])))))
     = []
  /\ render sample_ops
       (sample_state [] (Some (sample_status true (Some 40%float) (Some []))))
     = render sample_ops
         (sample_state [] (Some (sample_status true (Some 40%float) None))).
Proof. repeat split. Qed.

(** C8. A start attempt with an empty or white-space-only path fails
    fast: [handleStart] returns at once, with the state untouched and no
    request sent, and every element that starts a scan is rendered
    disabled. Whatever the path, a request [handleStart] does send carries
    a target path that is not blank. *)
Theorem blank_path_never_starts_a_scan :
  (forall ops st,
      whitespace_only (path st) ->
      handleStart st = Done st
      /\ requests (handleStart st) = []
      /\ (forall n, In n (nodes (render ops st)) -> starts_scan n = true ->
                    is_disabled n = true))
  /\ (forall st r,
        In r (requests (handleStart st)) ->
        endpoint r = "/scan/start"
        /\ exists p, targets r p /\ blank p = false).
Proof.
  split.
  - intros ops st Hw. unfold whitespace_only in Hw.
    rewrite <- StringFacts.blank_spec in Hw.
    assert (E : handleStart st = Done st) by (unfold handleStart; now rewrite Hw).
    split; [exact E|]. split; [now rewrite E|].
    intros n Hn Hs.
    assert (Hin : In n (select starts_scan (render ops st)))
      by now apply select_In.
    rewrite select_starts_scan in Hin.
    destruct (active (status st)); [destruct Hin|].
    destruct Hin as [<-|[]]. unfold start_button, is_disabled. cbn.
    rewrite Hw. now rewrite orb_true_r.
  - intros st r. unfold handleStart.
    destruct (blank (path st)) eqn:Hb; [intros []|].
    intros [<-|[]]. split; [reflexivity|].
    exists (trim (path st)). split.
    + now exists (forceReprocess st).
    + now rewrite StringFacts.blank_trim.
Qed.

(** C8 on a path of two spaces and a tab. *)
Lemma blank_path_never_starts_a_scan_witness :
  handleStart (sample_state [32; 32; 9]%N None) = Done (sample_state [32; 32; 9]%N None)
  /\ requests (handleStart (sample_state [32; 32; 9]%N None)) = [].
Proof.
  destruct blank_path_never_starts_a_scan as [Hblank _].
  destruct (Hblank sample_ops (sample_state [32; 32; 9]%N None) eq_refl)
    as (H1 & H2 & _).
  split; [exact H1|exact H2].
Defined.

End ScanClaims.

(** ** The chat panel *)

Module ChatClaims.
Import ChatPanel.



(** C7. A chat call is one stateless turn: the request [handleSend] sends
    is a POST to [/gallery/chat] whose body has exactly the two fields
    [file_path], of the selected item, and [prompt], the trimmed input;
    it is the same whatever the transcript holds. The transcript is state
    of the panel, and the effect on a change of the selected item replaces
    it by the greeting alone (and by nothing when no item is selected). *)
Theorem chat_is_a_stateless_single_turn :
  (forall item st r,
      In r (requests (handleSend item st)) ->
      method r = POST /\ endpoint r = "/gallery/chat" /\ query r = []
      /\ body r = Some [("file_path", PStr (Api.file_path item));
                        ("prompt", PStr (trim (input st)))])
  /\ (forall item st transcript,
        requests (handleSend item (setMessages transcript st))
        = requests (handleSend item st))
  /\ (forall item st, messages (on_item_change (Some item) st) = [greeting])
  /\ (forall st, messages (on_item_change None st) = []).
Proof.
  split; [|split; [|split]].
  - intros item st r. unfold handleSend.
    destruct (blank (input st) || isLoading st); [intros []|].
    intros [<-|[]]. repeat split.
  - intros item st transcript. unfold handleSend. cbn [input isLoading setMessages].
    now destruct (blank (input st) || isLoading st).
  - reflexivity.
  - reflexivity.
Qed.

(** C7 on a panel with a transcript of three messages: the request is
    the one an empty transcript gives, and a newly selected item starts
    from the greeting. *)
Lemma chat_is_a_stateless_single_turn_witness :
  requests (handleSend sample_item
              {| messages := [greeting; error_reply; greeting];
                 input := lit " and now? "; isLoading := false |})
  = requests (handleSend sample_item
                {| messages := []; input := lit " and now? "; isLoading := false |})
  /\ messages (on_item_change (Some sample_item)
                 {| messages := [greeting; error_reply; greeting];
                    input := lit " and now? "; isLoading := false |})
     = [greeting].
Proof.
  destruct chat_is_a_stateless_single_turn as (_ & Hsame & Hreset & _).
  split.
  - exact (Hsame sample_item
             {| messages := []; input := lit " and now? "; isLoading := false |}
             [greeting; error_reply; greeting]).
  - apply Hreset.
Defined.

End ChatClaims.

(** ** Search on the gallery page and in the react-query gallery *)

Module SearchClaims.
Import Home.



Lemma truthy_str_true (v : JsString) : v <> [] -> truthy_str v = true.
Proof. now destruct v. Qed.




(** What [handleSearch] does with a query that is not blank. *)
Lemma handleSearch_not_blank query st :
  blank query = false ->
  handleSearch query st
  = Await (setLoading true (setCurrentSearch query st)) (search_request query)
      (fun o s =>
         setLoading false
           match resume (Api.searchMedia query Api.default_top_k) o with
           | Returned results =>
               setHasMore false
                 (setSelectedItem None
                    (setMedia
                       (by_series (filters st)
                          (by_character (filters st)
                             (by_media_type (filters st) results))) s))
           | Thrown _ => setError (lit "Search failed.") s
           end).
Proof. intros Hb. unfold handleSearch. rewrite Hb. reflexivity. Qed.

Lemma blank_false_truthy q : blank q = false -> truthy_str q = true.
Proof.
  rewrite StringFacts.blank_spec. destruct q; [discriminate|reflexivity].
Qed.

(** While a search is the current one, or nothing more is to be had, the
    grid coming into view sends nothing. *)
Lemma on_in_view_quiet inView st :
  truthy_str (currentSearch st) = true \/ hasMore st = false ->
  requests (on_in_view inView st) = [].
Proof.
  intros H. unfold on_in_view, main_view, handleLoadMore.
  destruct (loading st) eqn:L; [reflexivity|].
  destruct (truthy_str (error st)); [reflexivity|].
  unfold GalleryGrid.calls_onLoadMore.
  cbn [GalleryGrid.hasMore GalleryGrid.has_onLoadMore].
  destruct inView, (hasMore st), (truthy_str (currentSearch st));
    try reflexivity; destruct H; discriminate.
Qed.

(** C4, for queries that are not blank. On the gallery page, for every query that is not blank
    (not empty after trimming), [handleSearch] sends exactly one request,
    POST [/gallery/search] with the query and [top_k = 50]; when its
    results arrive [hasMore] is set to false; and whatever the outcome, the
    grid coming into view afterwards sends no further request. In the
    react-query gallery, for every non-empty [q], the page function sends
    POST [/api/gallery/search] with [top_k = 50], [getNextPageParam]
    returns [undefined], and the load-more effect sends nothing. *)
Theorem search_fetches_a_single_page :
  (forall query st,
      blank query = false ->
      requests (handleSearch query st) = [search_request query]
      /\ (forall st1 req k results s,
            handleSearch query st = Await st1 req k ->
            hasMore (k (Response true (Returned results)) s) = false)
      /\ (forall o inView,
            requests (on_in_view inView (final (handleSearch query st) o)) = []))
  /\ (forall key query,
        Gallery.q key = Some query -> query <> [] ->
        (forall pageParam,
            request (Gallery.fetchGallery pageParam key)
            = {| method := POST; endpoint := "/api/gallery/search";
                 query := [("query", PStr query); ("top_k", PNum 50)];
                 body := None |})
        /\ (forall lastPage allPages,
              Gallery.getNextPageParam key lastPage allPages = None)
        /\ (forall pages inView, Gallery.on_in_view key pages inView = [])).
Proof.
  split.
  - intros query st Hb. rewrite (handleSearch_not_blank _ _ Hb).
    split; [reflexivity|]. split.
    + intros st1 req k results s [= _ _ <-]. reflexivity.
    + intros o inView. apply on_in_view_quiet. cbn [final].
      destruct (resume (Api.searchMedia query Api.default_top_k) o) as [results|m].
      * right. reflexivity.
      * left. cbn. now apply blank_false_truthy.
  - intros key query Hq Hne.
    assert (T : truthy_str query = true) by now apply truthy_str_true.
    split; [|split].
    + intros pageParam. unfold Gallery.fetchGallery. now rewrite Hq, T.
    + intros lastPage allPages. unfold Gallery.getNextPageParam.
      rewrite Hq. cbn. now rewrite T.
    + intros pages inView. unfold Gallery.on_in_view, Gallery.hasNextPage.
      destruct (last pages) as [lastPage|]; [|now rewrite andb_false_r].
      unfold Gallery.getNextPageParam. rewrite Hq. cbn. rewrite T.
      now rewrite andb_false_r.
Qed.

(** C4 on the query "red umbrella". *)
Lemma search_fetches_a_single_page_witness :
  requests (handleSearch (lit "red umbrella") initial)
  = [ {| method := POST; endpoint := "/gallery/search";
         query := [("query", PStr (lit "red umbrella")); ("top_k", PNum 50)];
         body := None |} ]
  /\ Gallery.getNextPageParam
       {| Gallery.q := Some (lit "red umbrella"); Gallery.character := None;
          Gallery.series := None; Gallery.media_type := None |}
       (repeat ChatPanel.sample_item 50) [repeat ChatPanel.sample_item 50]
     = None.
Proof.
  destruct search_fetches_a_single_page as [Hhome Hgallery]. split.
  - now apply Hhome.
  - eapply Hgallery; [reflexivity|discriminate].
Defined.

(** C4 does not hold on the gallery page for a query of one space: it
    is not empty, yet no search request is sent (the page reloads the
    browse listing instead), and a full page of 50 items leaves [hasMore]
    true. *)
Lemma blank_query_is_not_searched :
  truthy_str (lit " ") = true
  /\ requests (handleSearch (lit " ") initial)
     = [ {| method := GET; endpoint := "/gallery/";
            query := [("limit", PNum 50)]; body := None |} ]
  /\ existsb is_search_request (requests (handleSearch (lit " ") initial)) = false
  /\ hasMore (final (handleSearch (lit " ") initial)
                    (Response true (Returned (repeat ChatPanel.sample_item 50))))
     = true.
Proof. repeat split. Qed.



End SearchClaims.

(** ** Snippets: from the query engine to the card *)

Module SnippetClaims.
Import Backend GalleryGrid.

(** [insert_best] and [keep_best]: what stays is from the input, no file
    stays twice, and every input item is matched or beaten by the item of
    its file that stays. *)

Lemma insert_best_In it acc x :
  In x (insert_best it acc) -> x = it \/ In x acc.
Proof.
  induction acc as [|a rest IH]; simpl.
  - intros [<-|[]]. now left.
  - destruct (String.eqb (item_file a) (item_file it)).
    + destruct (item_score a <? item_score it)%Z; simpl; intuition.
    + simpl. intuition.
Qed.

Lemma insert_best_files it acc f :
  In f (List.map item_file (insert_best it acc)) ->
  f = item_file it \/ In f (List.map item_file acc).
Proof.
  induction acc as [|a rest IH]; simpl.
  - intuition.
  - destruct (String.eqb (item_file a) (item_file it)) eqn:E.
    + apply String.eqb_eq in E.
      destruct (item_score a <? item_score it)%Z; simpl; intuition.
    + simpl. intuition.
Qed.

Lemma insert_best_NoDup it acc :
  List.NoDup (List.map item_file acc) ->
  List.NoDup (List.map item_file (insert_best it acc)).
Proof.
  induction acc as [|a rest IH]; simpl; intros Hnd.
  - constructor; [intros []|constructor].
  - apply List.NoDup_cons_iff in Hnd as [Hna Hnd].
    destruct (String.eqb (item_file a) (item_file it)) eqn:E.
    + apply String.eqb_eq in E.
      destruct (item_score a <? item_score it)%Z; simpl;
        apply List.NoDup_cons_iff; split; auto. now rewrite <- E.
    + apply String.eqb_neq in E. simpl. apply List.NoDup_cons_iff. split; [|auto].
      intros Hin. apply insert_best_files in Hin as [Hin|Hin]; auto.
Qed.

Lemma insert_best_dominates it acc x :
  x = it \/ In x acc ->
  exists y, In y (insert_best it acc)
            /\ item_file y = item_file x /\ (item_score x <= item_score y)%Z.
Proof.
  induction acc as [|a rest IH]; simpl.
  - intros [->|[]]. exists it. split; [now left|]. split; [reflexivity|lia].
  - destruct (String.eqb (item_file a) (item_file it)) eqn:E.
    + apply String.eqb_eq in E.
      destruct (item_score a <? item_score it)%Z eqn:L.
      * apply Z.ltb_lt in L. intros [->|[->|Hx]].
        -- exists it. split; [now left|]. split; [reflexivity|lia].
        -- exists it. split; [now left|]. split; [now rewrite E|lia].
        -- exists x. split; [now right|]. split; [reflexivity|lia].
      * apply Z.ltb_ge in L. intros [->|[->|Hx]].
        -- exists a. split; [now left|]. split; [exact E|lia].
        -- exists x. split; [now left|]. split; [reflexivity|lia].
        -- exists x. split; [now right|]. split; [reflexivity|lia].
    + intros [->|[->|Hx]].
      * destruct (IH (or_introl eq_refl)) as (y & Hy & Hf & Hs).
        exists y. split; [now right|]. now split.
      * exists x. split; [now left|]. split; [reflexivity|lia].
      * destruct (IH (or_intror Hx)) as (y & Hy & Hf & Hs).
        exists y. split; [now right|]. now split.
Qed.

Lemma fold_insert_best items acc :
  List.NoDup (List.map item_file acc) ->
  let out := fold_left (fun acc it => insert_best it acc) items acc in
  List.NoDup (List.map item_file out)
  /\ (forall x, In x out -> In x items \/ In x acc)
  /\ (forall x, In x items \/ In x acc ->
       exists y, In y out /\ item_file y = item_file x
                 /\ (item_score x <= item_score y)%Z).
Proof.
  revert acc. induction items as [|it items IH]; intros acc Hnd; simpl.
  - split; [exact Hnd|]. split; [tauto|].
    intros x [[]|Hx]. exists x. split; [exact Hx|]. split; [reflexivity|lia].
  - destruct (IH (insert_best it acc) (insert_best_NoDup it acc Hnd))
      as (H1 & H2 & H3). split; [exact H1|]. split.
    + intros x Hx. destruct (H2 x Hx) as [Hi|Hi]; [tauto|].
      apply insert_best_In in Hi. intuition.
    + intros x Hx.
      assert (Hx' : In x items \/ (x = it \/ In x acc)) by intuition.
      destruct Hx' as [Hi|Hi].
      * apply H3. now left.
      * destruct (insert_best_dominates it acc x Hi) as (y & Hy & Hf & Hs).
        destruct (H3 y (or_intror Hy)) as (z & Hz & Hzf & Hzs).
        exists z. split; [exact Hz|]. split; [congruence|lia].
Qed.

Lemma same_file_same_item (l : list SearchItem) a b :
  List.NoDup (List.map item_file l) -> In a l -> In b l ->
  item_file a = item_file b -> a = b.
Proof.
  induction l as [|c l IH]; simpl; [tauto|].
  intros Hnd. apply List.NoDup_cons_iff in Hnd as [Hn Hnd].
  intros [->|Ha] [->|Hb] E; auto.
  - exfalso. apply Hn. rewrite E. now apply in_map.
  - exfalso. apply Hn. rewrite <- E. now apply in_map.
Qed.

(** Every item that stays is an input item that no input item of the same
    file outscores. *)
Lemma keep_best_wins items m :
  In m (keep_best items) ->
  In m items
  /\ forall x, In x items -> item_file x = item_file m ->
               (item_score x <= item_score m)%Z.
Proof.
  unfold keep_best. intros Hm.
  destruct (fold_insert_best items [] (List.NoDup_nil _)) as (H1 & H2 & H3).
  split.
  - destruct (H2 m Hm) as [H|[]]. exact H.
  - intros x Hx Hf. destruct (H3 x (or_introl Hx)) as (y & Hy & Hyf & Hys).
    assert (y = m) by (eapply same_file_same_item; eauto; congruence).
    now subst.
Qed.

(** Every result of a search comes from a retrieved record of its file
    that no other retrieved record of the file outscores, and carries
    that record's snippet. *)
Lemma search_item_origin similarity top_k s item :
  In item (search similarity top_k s) ->
  exists h r,
    In h (retrieve similarity top_k s)
    /\ records s !! hit_id h = Some r
    /\ rec_file r = item_file item
    /\ hit_score h = item_score item
    /\ item_snippet item = snippet_of r
    /\ (forall h' r', In h' (retrieve similarity top_k s) ->
                      records s !! hit_id h' = Some r' ->
                      is_Some (Backend.media s !! rec_file r') ->
                      rec_file r' = item_file item ->
                      (hit_score h' <= item_score item)%Z).
Proof.
  unfold search. intros Hin.
  apply list_elem_of_In in Hin. rewrite merge_sort_Permutation in Hin.
  apply list_elem_of_In in Hin. apply keep_best_wins in Hin as [Hin Hbest].
  apply list_elem_of_In, list_elem_of_omap in Hin as (h & Hh & Hitem).
  apply list_elem_of_In in Hh.
  unfold to_item in Hitem.
  destruct (records s !! hit_id h) as [r|] eqn:Hr; [|discriminate].
  destruct (Backend.media s !! rec_file r) eqn:Hm; [|discriminate].
  injection Hitem as <-. exists h, r. repeat split; try assumption.
  intros h' r' Hh' Hr' [mf Hm'] Hf.
  apply (Hbest {| item_file := rec_file r'; item_score := hit_score h';
                  item_snippet := snippet_of r' |}); [|exact Hf].
  apply list_elem_of_In, list_elem_of_omap. exists h'.
  split; [now apply list_elem_of_In|].
  unfold to_item. now rewrite Hr', Hm'.
Qed.

Lemma snippet_of_text_segment r :
  is_Some (snippet_of r) <-> of_text_segment r.
Proof.
  unfold snippet_of, of_text_segment. destruct (rec_owner r) as [seg|].
  - split.
    + intros [text Ht]. eauto.
    + intros (seg' & text & [= <-] & Ht). eauto.
  - split.
    + intros [? ?]. discriminate.
    + intros (? & ? & ? & _). discriminate.
Qed.

(** The snippet texts a card shows. *)
Lemma shown_snippets_MediaCard item hovered :
  shown_snippets (MediaCard item hovered)
  = match Api.snippet item with
    | Some text => if truthy_str text then [text] else []
    | None => []
    end.
Proof.
  destruct item as [i fp mt w h tags [|a [|b ctags]] stags [[|c text]|]];
    unfold shown_snippets, MediaCard, is_video, when;
    cbn [Api.snippet Api.character_tags Api.media_type Api.id length Nat.ltb
         Nat.leb firstn List.map truthy_str];
    destruct hovered, (eqb_str mt (lit "video")); reflexivity.
Qed.

(** C5, with a shown snippet being a non-empty one. Every item a search returns carries the snippet of
    its winning record, the highest-scoring retrieved record of its file:
    the snippet field is present exactly when that record belongs to a
    Segment with text, and absent for an image-level match. The card
    shows the snippet block, with the snippet as its text, if and only if
    the item's snippet field is present and not the empty string. *)
Theorem snippet_is_attached_and_shown :
  (forall similarity top_k s item,
      In item (search similarity top_k s) ->
      exists h r,
        In h (retrieve similarity top_k s)
        /\ records s !! hit_id h = Some r
        /\ rec_file r = item_file item
        /\ (forall h' r', In h' (retrieve similarity top_k s) ->
                          records s !! hit_id h' = Some r' ->
                          is_Some (Backend.media s !! rec_file r') ->
                          rec_file r' = item_file item ->
                          (hit_score h' <= hit_score h)%Z)
        /\ (is_Some (snippet_field item) <-> of_text_segment r)
        /\ (rec_owner r = OfMediaFile -> snippet_field item = None))
  /\ (forall item hovered text,
        In text (shown_snippets (MediaCard item hovered))
        <-> Api.snippet item = Some text /\ text <> []).
Proof.
  split.
  - intros similarity top_k s item Hin.
    destruct (search_item_origin _ _ _ _ Hin) as (h & r & Hh & Hr & Hf & Hs & Hsn & Hbest).
    exists h, r. repeat split; try assumption.
    + intros h' r' Hh' Hr' Hm Hf'. rewrite Hs. eauto.
    + unfold snippet_field. rewrite Hsn, fmap_is_Some. apply snippet_of_text_segment.
    + unfold snippet_field. rewrite Hsn, fmap_is_Some. apply snippet_of_text_segment.
    + intros Ho. unfold snippet_field. rewrite Hsn. unfold snippet_of. now rewrite Ho.
  - intros item hovered text. rewrite shown_snippets_MediaCard.
    destruct (Api.snippet item) as [[|c t]|]; simpl.
    + split; [tauto|]. intros [[= <-] H]. congruence.
    + split.
      * intros [<-|[]]. split; [reflexivity|discriminate].
      * intros [[= <-] _]. now left.
    + split; [tauto|]. intros [? _]. discriminate.
Qed.

(** C5 on the sample video, whose snippet is "a cat jumps". *)
Lemma snippet_is_attached_and_shown_witness :
  In (lit "a cat jumps") (shown_snippets (MediaCard Home.sample_video false)).
Proof.
  destruct snippet_is_attached_and_shown as [_ Hcard].
  apply Hcard. split; [reflexivity|discriminate].
Defined.

(** C5 does not hold for an item whose snippet field is present and
    holds the empty string: the card shows no snippet block. *)
Lemma empty_snippet_is_not_shown :
  Api.snippet empty_snippet_item = Some []
  /\ shown_snippets (MediaCard empty_snippet_item false) = []
  /\ shown_snippets (MediaCard empty_snippet_item true) = [].
Proof. repeat split. Qed.

End SnippetClaims.

(** ** More of the scan panel *)

Module ScanMore.
Import ScanUI DomFacts Views.

(** The guard of [formatETA], [!seconds || seconds <= 0], fails exactly
    for the numbers above zero. *)
Lemma eta_guard x :
  negb (truthy_num x) || PrimFloat.leb x 0 = negb (PrimFloat.ltb 0 x).
Proof.
  unfold truthy_num, PrimFloat.is_zero, PrimFloat.zero.
  rewrite NumberFacts.is_nan_spec, FloatAxioms.eqb_spec, leb_spec, ltb_spec.
  change (Prim2SF 0) with (S754_zero false).
  destruct (Prim2SF x) as [[]|[]| |[] m e]; reflexivity.
Qed.

(** X1. [formatETA] shows a time exactly when [eta_seconds] is a number
    above zero; a missing value, zero, a negative number and [NaN] all
    give the placeholder. *)
Theorem eta_shown_only_above_zero ops seconds :
  formatETA ops seconds
  = match seconds with
    | Some x =>
        if PrimFloat.ltb 0 x
        then toString ops (Math_floor ops (PrimFloat.div x 60)) ++ lit "m "
             ++ toString ops (Math_floor ops (rem ops x 60)) ++ lit "s"
        else lit "--:--"
    | None => lit "--:--"
    end.
Proof.
  destruct seconds as [x|]; [|reflexivity].
  unfold formatETA. rewrite eta_guard. now destruct (PrimFloat.ltb 0 x).
Qed.






Section WithOps.
Context (ops : NumberOps).

Ltac split_panel st :=
  let p := fresh "p" in let f := fresh "f" in let s := fresh "s" in
  let e := fresh "e" in let g := fresh "g" in
  destruct st as [p f s e g];
  destruct s as [[a cf pp pc tf eta [[|? ?]|]]|]; [destruct a, pp as [x|] ..| ];
  destruct e as [|? ?], g;
  unfold shown_start_errors, render, start_error_banner, scan_error_banner,
    start_button, progress_view, percent_label, when, field, active;
  cbn [ScanUI.status ScanUI.error ScanUI.starting ScanUI.path
       ScanUI.forceReprocess Api.is_active Api.error Api.progress_percent
       Api.current_file Api.processed_count Api.total_files Api.eta_seconds
       truthy_str negb];
  try match goal with |- context [toFixed ops ?x ?d] => destruct (toFixed ops x d) end.

(** The banner of a failed start shows the panel's error, and is there
    exactly when the error is not empty. *)
Lemma shown_start_errors_render st :
  shown_start_errors (render ops st)
  = if truthy_str (error st) then [error st] else [].
Proof. split_panel st; reflexivity. Qed.

(** X3. A start with a path that is not blank: while the request is in
    flight the panel is marked starting, an older start error is cleared
    from the screen, and every element that starts a scan is disabled;
    when the outcome arrives the mark is taken back, a failure shows its
    message, or "Failed to start scan" if it has none, and a success
    shows no start error. *)
Theorem start_in_flight st :
  blank (path st) = false ->
  starting (at_await (handleStart st)) = true
  /\ shown_start_errors (render ops (at_await (handleStart st))) = []
  /\ (forall n, In n (nodes (render ops (at_await (handleStart st)))) ->
                starts_scan n = true -> is_disabled n = true)
  /\ (forall o, starting (final (handleStart st) o) = false)
  /\ (forall o m,
        resume (Api.startScan (trim (path st)) (forceReprocess st)) o = Thrown m ->
        shown_start_errors (render ops (final (handleStart st) o))
        = [if truthy_str m then m else lit "Failed to start scan"])
  /\ (forall o u,
        resume (Api.startScan (trim (path st)) (forceReprocess st)) o = Returned u ->
        shown_start_errors (render ops (final (handleStart st) o)) = []).
Proof.
  intros Hb. unfold handleStart. rewrite Hb. cbn [at_await final].
  split; [reflexivity|]. split; [now rewrite shown_start_errors_render|].
  split; [|split; [|split]].
  - intros n Hn Hs.
    assert (Hin : In n (select starts_scan
                          (render ops (setError [] (setStarting true st)))))
      by now apply select_In.
    rewrite ScanUIFacts.select_starts_scan in Hin.
    destruct (active _); [destruct Hin|]. now destruct Hin as [<-|[]].
  - intros o. now destruct (resume _ o).
  - intros o m ->. rewrite shown_start_errors_render.
    cbn [error setError setStarting]. now destruct m.
  - intros o u ->. now rewrite shown_start_errors_render.
Qed.

(** X4. A poll of the scan status: a failed one (no response, a response
    that is not ok, an unreadable body) leaves the panel's state as it
    was and is retried after 8 seconds; one that reports an active scan
    takes the Start button off the screen and is repeated after 1 second;
    one that reports no active scan is repeated after 8 seconds. *)
Theorem status_poll st o :
  (ChatPanel.failed o = true ->
   final (fetchStatus st) o = st /\ poll_delay o = 8000%N)
  /\ (forall data,
        o = Response true (Returned data) ->
        status (final (fetchStatus st) o) = Some data
        /\ (Api.is_active data = true ->
            poll_delay o = 1000%N
            /\ select starts_scan (render ops (final (fetchStatus st) o)) = [])
        /\ (Api.is_active data = false -> poll_delay o = 8000%N)).
Proof.
  split.
  - destruct o as [m|[] [d|m]]; simpl; try discriminate; now destruct st.
  - intros data ->.
    assert (E : final (fetchStatus st) (Response true (Returned data))
                = setStatus (Some data) st) by reflexivity.
    assert (P : poll_delay (Response true (Returned data))
                = if Api.is_active data then 1000%N else 8000%N) by reflexivity.
    rewrite E, P. split; [reflexivity|]. split; intros Ha; rewrite Ha.
    + split; [reflexivity|].
      rewrite ScanUIFacts.select_starts_scan.
      cbn [status setStatus active]. now rewrite Ha.
    + reflexivity.
Qed.

End WithOps.

(** X3 on a start that fails without a message. *)
Lemma start_in_flight_witness :
  shown_start_errors
    (render sample_ops
       (final (handleStart (sample_state (lit "/media") None)) (NetworkError [])))
  = [lit "Failed to start scan"].
Proof.
  destruct (start_in_flight sample_ops (sample_state (lit "/media") None) eq_refl)
    as (_ & _ & _ & _ & Hfail & _).
  exact (Hfail (NetworkError []) [] eq_refl).
Defined.

(** X4 on a poll that reports a running scan. *)
Lemma status_poll_witness :
  poll_delay (Response true (Returned (sample_status true None None))) = 1000%N
  /\ select starts_scan
       (render sample_ops
          (final (fetchStatus (sample_state [] None))
                 (Response true (Returned (sample_status true None None)))))
     = [].
Proof.
  destruct (status_poll sample_ops (sample_state [] None)
              (Response true (Returned (sample_status true None None))))
    as [_ H].
  destruct (H _ eq_refl) as (_ & Hactive & _).
  now apply Hactive.
Defined.

End ScanMore.

(** ** Selecting below an element *)

Module TreeFacts.
Import DomFacts.

Lemma filter_flat_map_nodes {H} (p : VNode H -> bool) cs :
  List.filter p (flat_map nodes cs) = flat_map (select p) cs.
Proof.
  induction cs as [|c cs IH]; [reflexivity|].
  cbn [flat_map]. rewrite List.filter_app, IH. reflexivity.
Qed.

(** The selection from an element: the element itself if it qualifies,
    then the selections from its children. *)
Lemma select_El {H} (p : VNode H -> bool) tag attrs cs :
  select p (El tag attrs cs)
  = (if p (El tag attrs cs) then [El tag attrs cs] else [])
    ++ flat_map (select p) cs.
Proof.
  unfold select at 1. cbn [nodes List.filter].
  rewrite filter_flat_map_nodes. now destruct (p (El tag attrs cs)).
Qed.

Lemma select_map_nil {H A} (p : VNode H -> bool) (f : A -> VNode H) l :
  (forall x, select p (f x) = []) ->
  flat_map (select p) (List.map f l) = [].
Proof.
  intros Hf. induction l as [|x l IH]; [reflexivity|].
  cbn [List.map flat_map]. now rewrite Hf, IH.
Qed.

Lemma existsb_nodes_El {H} (p : VNode H -> bool) tag attrs cs :
  existsb p (nodes (El tag attrs cs))
  = p (El tag attrs cs) || existsb (fun c => existsb p (nodes c)) cs.
Proof.
  cbn [nodes existsb]. f_equal.
  induction cs as [|c cs IH]; [reflexivity|].
  cbn [flat_map existsb]. now rewrite existsb_app, IH.
Qed.

End TreeFacts.

(** ** More of the chat panel *)

Module ChatMore.
Import ChatPanel DomFacts Views.

(** The one submit button of the panel. *)
Lemma select_submit item st tree :
  render (Some item) st = Some tree ->
  select is_submit tree
  = [El "button" [Type_ "submit"; Disabled (blank (input st) || isLoading st)]
        [El "Send" [] []]].
Proof.
  intros [= <-].
  assert (Hm : select is_submit
                 (El "div" []
                    (List.map bubble (messages st)
                     ++ when (isLoading st)
                          (El "div" []
                             [El "div" [] [El "Loader2" [] []; Txt (lit "Thinking...")]])
                     ++ [El "div" [] []]))
               = []).
  { rewrite TreeFacts.select_El, !List.flat_map_app.
    rewrite (TreeFacts.select_map_nil is_submit bubble) by reflexivity.
    now destruct (isLoading st). }
  rewrite TreeFacts.select_El. cbn [flat_map]. rewrite Hm. reflexivity.
Qed.

(** X5. The chat form's submit button is disabled exactly when
    [handleSend] would return without sending: on a blank input or while
    an answer is awaited. *)
Theorem send_button_matches_handler item st tree :
  render (Some item) st = Some tree ->
  exists button,
    select is_submit tree = [button]
    /\ (is_disabled button = true <-> requests (handleSend item st) = []).
Proof.
  intros Hr. eexists. split; [exact (select_submit _ _ _ Hr)|].
  unfold handleSend, is_disabled. cbn [attrs_of existsb].
  destruct (blank (input st) || isLoading st); cbn; split; congruence.
Qed.

(** X5 on the panel as it opens: nothing typed, the button is disabled. *)
Lemma send_button_matches_handler_witness :
  exists button,
    select is_submit
      (El "div" []
         [ El "div" []
              [ El "h3" [] [Txt (10024%N :: lit " Chat with Image")];
                El "button" [OnClick Close] [El "X" [] []] ];
           El "div" []
              [ El "img" [Src (Api.getOriginalUrl 7); Alt (lit "Selected")] [] ];
           El "div" [] [El "div" [] []];
           El "div" []
              [ El "form" [OnSubmit HandleSend]
                   [ El "input" [Type_ "text"; Value []; OnChange SetInput;
                                 Placeholder "Ask about this image...";
                                 Disabled false] [];
                     El "button" [Type_ "submit"; Disabled true]
                        [El "Send" [] []] ] ] ])
    = [button]
    /\ (is_disabled button = true <-> requests (handleSend sample_item initial) = []).
Proof. exact (send_button_matches_handler sample_item initial _ eq_refl). Defined.

(** X6. A send that is answered: the transcript grows by the trimmed
    input as the user's message and then the answer as the assistant's,
    the input field is emptied and the loading mark is taken back. While
    the answer is awaited the field is empty and disabled by the loading
    mark, and the panel shows "Thinking...". *)
Theorem answered_send item st reply :
  blank (input st) = false -> isLoading st = false ->
  final (handleSend item st) (Response true (Returned reply))
  = {| messages := messages st
                   ++ [ {| role := user; content := trim (input st) |};
                        {| role := assistant; content := Api.answer reply |} ];
       input := []; isLoading := false |}
  /\ at_await (handleSend item st)
     = {| messages := messages st ++ [{| role := user; content := trim (input st) |}];
          input := []; isLoading := true |}
  /\ (forall tree, render (Some item) (at_await (handleSend item st)) = Some tree ->
                   shows_text (lit "Thinking...") tree = true).
Proof.
  intros Hb Hl. unfold handleSend. rewrite Hb, Hl. cbn -[trim lit].
  rewrite <- app_assoc. split; [reflexivity|]. split; [reflexivity|].
  intros tree [= <-]. unfold shows_text. apply existsb_exists.
  exists (Txt (lit "Thinking...")). split.
  - eapply nodes_child; [cbn [children_of]; right; right; now left|].
    eapply nodes_child.
    + cbn [children_of]. apply in_or_app. right. now left.
    + right. cbn. tauto.
  - unfold eqb_str. now destruct (decide _).
Qed.

(** X6 on the question "what is this?" answered by "a cat". *)
Lemma answered_send_witness :
  messages
    (final (handleSend sample_item
              {| messages := [greeting]; input := lit " what is this? ";
                 isLoading := false |})
           (Response true (Returned {| Api.answer := lit "a cat" |})))
  = [ greeting; {| role := user; content := lit "what is this?" |};
      {| role := assistant; content := lit "a cat" |} ].
Proof.
  destruct (answered_send sample_item
              {| messages := [greeting]; input := lit " what is this? ";
                 isLoading := false |}
              {| Api.answer := lit "a cat" |} eq_refl eq_refl) as [E _].
  exact (f_equal messages E).
Defined.

(** X7. No two chat calls run at once: from the state a send leaves
    while it awaits the answer, a further send, for this or any other
    item, returns without a request. *)
Theorem one_chat_call_at_a_time item item' st :
  requests (handleSend item st) <> [] ->
  requests (handleSend item' (at_await (handleSend item st))) = [].
Proof.
  unfold handleSend.
  destruct (blank (input st) || isLoading st); [intros H; now destruct H|].
  intros _. cbn [at_await]. unfold handleSend.
  cbn [isLoading setIsLoading]. now rewrite orb_true_r.
Qed.

(** X7 on a first question. *)
Lemma one_chat_call_at_a_time_witness :
  requests (handleSend sample_item
              (at_await (handleSend sample_item
                           {| messages := []; input := lit "hello";
                              isLoading := false |})))
  = [].
Proof.
  apply one_chat_call_at_a_time. discriminate.
Defined.

End ChatMore.

(** ** More of the gallery page *)

Module HomeMore.
Import Home Views.

Lemma loadMedia_keeps_list off f st : keeps_list_on_failure (loadMedia off f st).
Proof.
  unfold loadMedia, keeps_list_on_failure. intros o s Hf.
  destruct o as [m|[] [d|m]]; simpl in Hf; try discriminate;
    cbn -[lit]; destruct (off =? 0)%N; split; reflexivity.
Qed.

Lemma handleSearch_keeps_list query st : keeps_list_on_failure (handleSearch query st).
Proof.
  unfold handleSearch. destruct (blank query); [apply loadMedia_keeps_list|].
  intros o s Hf.
  destruct o as [m|[] [d|m]]; simpl in Hf; try discriminate; split; reflexivity.
Qed.

(** X8. A failed request never changes the list on the gallery page: for
    the first load, a load of more, a search and the reload after a filter
    change alike, when [fetch] rejects, the response is not ok (whatever
    its body) or the body cannot be read, the items stay as they were and
    an error message is set. *)
Theorem failed_request_keeps_the_list st query off f :
  keeps_list_on_failure (loadMedia off f st)
  /\ keeps_list_on_failure (handleSearch query st)
  /\ keeps_list_on_failure (handleLoadMore st)
  /\ keeps_list_on_failure (on_filters_change st).
Proof.
  split; [apply loadMedia_keeps_list|]. split; [apply handleSearch_keeps_list|].
  split.
  - unfold handleLoadMore. destruct (_ && _); [apply loadMedia_keeps_list|exact I].
  - unfold on_filters_change. destruct (negb _); [apply loadMedia_keeps_list|exact I].
Qed.

Lemma loadMedia_keeps_error off f st : preserves has_error st (loadMedia off f st).
Proof.
  unfold loadMedia, preserves, has_error. cbn [at_await]. split.
  - now destruct (off =? 0)%N.
  - intros o s Hs.
    destruct (resume _ o); destruct (off =? 0)%N; cbn -[lit]; try exact Hs; reflexivity.
Qed.

Lemma handleSearch_keeps_error query st : preserves has_error st (handleSearch query st).
Proof.
  unfold handleSearch. destruct (blank query).
  - destruct (loadMedia_keeps_error 0 (filters st) (setOffset 0 (setCurrentSearch query st)))
      as [H1 H2]. split; [exact H1|exact H2].
  - unfold preserves, has_error. cbn [at_await]. split; [tauto|].
    intros o s Hs. destruct (resume _ o); [exact Hs|reflexivity].
Qed.

(** X9. An error message on the gallery page is never cleared: no handler
    of the page, neither before its request nor after any outcome, takes
    a message away once it is set, and while a message is set the main
    area never shows the grid. *)
Theorem error_is_sticky st query off f :
  preserves has_error st (loadMedia off f st)
  /\ preserves has_error st (handleSearch query st)
  /\ preserves has_error st (handleLoadMore st)
  /\ preserves has_error st (on_filters_change st)
  /\ (forall s props, has_error s -> main_view s <> GridView props).
Proof.
  split; [apply loadMedia_keeps_error|]. split; [apply handleSearch_keeps_error|].
  split; [|split].
  - unfold handleLoadMore. destruct (_ && _).
    + destruct (loadMedia_keeps_error (offset st + 50) (filters st)
                  (setOffset (offset st + 50) st)) as [H1 H2].
      split; [exact H1|exact H2].
    + split; [tauto|exact I].
  - unfold on_filters_change. destruct (negb _).
    + destruct (loadMedia_keeps_error 0 (filters st) (setOffset 0 st)) as [H1 H2].
      split; [exact H1|exact H2].
    + split; [tauto|exact I].
  - intros s props Hs. unfold main_view, has_error in *.
    destruct (loading s); [discriminate|]. rewrite Hs. discriminate.
Qed.

Lemma offset_plus_50 n : (n + 50 =? 0)%N = false.
Proof. apply N.eqb_neq. lia. Qed.

(** X10. Loading more: when no search is current, more is to be had and
    nothing is loading, [handleLoadMore] asks for the page that starts 50
    items further, with a limit of 50, and when the page arrives it is
    appended to the list; more is to be had after it exactly if the page
    was full. *)
Theorem load_more_appends st :
  truthy_str (currentSearch st) = false -> hasMore st = true ->
  loading st = false -> isLoadingMore st = false ->
  exists k,
    handleLoadMore st
    = Await (setIsLoadingMore true (setOffset (offset st + 50) st))
            (request (Api.fetchMedia (load_options (offset st + 50) (filters st)))) k
    /\ (exists rest,
          query (request (Api.fetchMedia (load_options (offset st + 50) (filters st))))
          = ("limit", PNum 50) :: ("offset", PNum (offset st + 50)) :: rest)
    /\ (forall data s,
          media (k (Response true (Returned data)) s) = media s ++ data
          /\ hasMore (k (Response true (Returned data)) s)
             = (N.of_nat (length data) =? 50)%N
          /\ isLoadingMore (k (Response true (Returned data)) s) = false
          /\ offset (k (Response true (Returned data)) s) = offset s).
Proof.
  intros Hc Hm Hl Hi. unfold handleLoadMore. rewrite Hc, Hm, Hl, Hi.
  cbn [negb andb]. unfold loadMedia. rewrite offset_plus_50.
  eexists. split; [reflexivity|]. split.
  - cbn. rewrite offset_plus_50. eexists. reflexivity.
  - intros data s. cbn. repeat split.
Qed.

(** X10 on the page after its first 50 items. *)
Lemma load_more_appends_witness :
  requests (handleLoadMore (setLoading false (setMedia (repeat ChatPanel.sample_item 50) initial)))
  = [ {| method := GET; endpoint := "/gallery/";
         query := [("limit", PNum 50); ("offset", PNum 50)]; body := None |} ].
Proof.
  destruct (load_more_appends
              (setLoading false (setMedia (repeat ChatPanel.sample_item 50) initial))
              eq_refl eq_refl eq_refl eq_refl) as (k & E & _).
  rewrite E. reflexivity.
Defined.

(** X11. A page that is not full ends the scrolling: when a load brings
    a number of items other than 50, [hasMore] is false afterwards and the
    grid coming into view sends no request. *)
Theorem short_page_ends_scrolling off f st st1 req k data s inView :
  loadMedia off f st = Await st1 req k ->
  N.of_nat (length data) <> 50%N ->
  hasMore (k (Response true (Returned data)) s) = false
  /\ requests (on_in_view inView (k (Response true (Returned data)) s)) = [].
Proof.
  unfold loadMedia. intros [= _ _ <-] Hn.
  assert (Hm : hasMore
                 (let s1 := setHasMore (N.of_nat (length data) =? limit)%N
                              (if (off =? 0)%N then setMedia data s
                               else setMedia (media s ++ data) s) in
                  if (off =? 0)%N then setLoading false s1
                  else setIsLoadingMore false s1) = false).
  { apply N.eqb_neq in Hn. unfold limit. now destruct (off =? 0)%N. }
  split; [exact Hm|].
  apply SearchClaims.on_in_view_quiet. right. exact Hm.
Qed.

(** X11 on a first page of three items. *)
Lemma short_page_ends_scrolling_witness :
  hasMore (final (loadMedia 0 Sidebar.no_filters initial)
                 (Response true (Returned (repeat ChatPanel.sample_item 3))))
  = false.
Proof.
  refine (proj1 (short_page_ends_scrolling 0 Sidebar.no_filters initial _ _ _
                   (repeat ChatPanel.sample_item 3) _ true eq_refl _)).
  discriminate.
Defined.

(** X12. No two loads of more run at once, and none runs beside the
    first load: from the state [handleLoadMore] leaves while it awaits its
    page, and from any state marked loading, a further [handleLoadMore]
    sends nothing. *)
Theorem one_load_at_a_time st :
  (requests (handleLoadMore st) <> [] ->
   requests (handleLoadMore (at_await (handleLoadMore st))) = [])
  /\ (loading st = true \/ isLoadingMore st = true ->
      requests (handleLoadMore st) = []).
Proof.
  split.
  - assert (Hshape : handleLoadMore st = Done st
                     \/ exists req k,
                          handleLoadMore st
                          = Await (setIsLoadingMore true (setOffset (offset st + 50) st))
                                  req k).
    { unfold handleLoadMore. destruct (_ && _); [|now left].
      right. unfold loadMedia. rewrite offset_plus_50. eauto. }
    destruct Hshape as [-> | (req & k & ->)]; [intros H; now destruct H|].
    intros _. cbn [at_await]. unfold handleLoadMore.
    cbn [isLoadingMore setIsLoadingMore setOffset negb].
    now rewrite !andb_false_r.
  - intros H. unfold handleLoadMore.
    destruct H as [-> | ->]; cbn [negb]; now rewrite ?andb_false_r.
Qed.

(** X12 on the page after its first 50 items. *)
Lemma one_load_at_a_time_witness :
  requests (handleLoadMore
              (at_await (handleLoadMore
                           (setLoading false
                              (setMedia (repeat ChatPanel.sample_item 50) initial)))))
  = [].
Proof.
  apply (proj1 (one_load_at_a_time _)). discriminate.
Defined.

Lemma currentSearch_after_search query st o :
  currentSearch (final (handleSearch query st) o) = query.
Proof.
  unfold handleSearch. destruct (blank query).
  - unfold loadMedia. destruct o as [m|[] [d|m]]; reflexivity.
  - destruct o as [m|[] [d|m]]; reflexivity.
Qed.

(** X13. While a search is current, that is while [currentSearch] is not
    empty, the page neither reloads on a change of the filters nor loads
    more. Every submitted query that is not empty makes itself current,
    one of white space only included, whatever the outcome of its request:
    after it, new filters and the grid coming into view send nothing. *)
Theorem current_search_silences_the_page :
  (forall st, truthy_str (currentSearch st) = true ->
              on_filters_change st = Done st /\ handleLoadMore st = Done st)
  /\ (forall query st o f inView,
        truthy_str query = true ->
        requests (on_filters_change (setFilters f (final (handleSearch query st) o))) = []
        /\ requests (on_in_view inView (final (handleSearch query st) o)) = []).
Proof.
  split.
  - intros st Hc. unfold on_filters_change, handleLoadMore. now rewrite Hc.
  - intros query st o f inView Hq.
    pose proof (currentSearch_after_search query st o) as E. split.
    + unfold on_filters_change. cbn [currentSearch setFilters]. now rewrite E, Hq.
    + apply SearchClaims.on_in_view_quiet. left. now rewrite E.
Qed.

(** X13 on a query of one space whose reload brought a full page. *)
Lemma current_search_silences_the_page_witness :
  requests (on_in_view true
              (final (handleSearch (lit " ") initial)
                     (Response true (Returned (repeat ChatPanel.sample_item 50)))))
  = []
  /\ hasMore (final (handleSearch (lit " ") initial)
                    (Response true (Returned (repeat ChatPanel.sample_item 50))))
     = true.
Proof.
  destruct current_search_silences_the_page as [_ H].
  split; [|reflexivity].
  now apply (H (lit " ") initial _ Sidebar.no_filters true).
Defined.

(** Every pair [fetchMedia] appends is truthy. *)
Lemma append_num_truthy name x kv :
  In kv (Api.append_num name x) -> fst kv = name /\ truthy_param (snd kv) = true.
Proof.
  unfold Api.append_num. destruct x as [n|]; [|intros []].
  destruct (n =? 0)%N eqn:E; [intros []|].
  intros [<-|[]]. cbn. now rewrite E.
Qed.

Lemma append_str_truthy name x kv :
  In kv (Api.append_str name x) -> fst kv = name /\ truthy_param (snd kv) = true.
Proof.
  unfold Api.append_str. destruct x as [v|]; [|intros []].
  destruct (truthy_str v) eqn:E; [|intros []].
  intros [<-|[]]. now cbn.
Qed.

(** X14. [fetchMedia] asks with GET on [/gallery/], sends no body, and
    never sends a parameter that is zero or empty: a limit or offset of 0
    and an empty filter are left out, so the first page is asked for
    without an offset. Each parameter it sends is one of the six it
    knows. *)
Theorem fetchMedia_sends_only_set_parameters options :
  method (request (Api.fetchMedia options)) = GET
  /\ endpoint (request (Api.fetchMedia options)) = "/gallery/"
  /\ body (request (Api.fetchMedia options)) = None
  /\ (forall kv, In kv (query (request (Api.fetchMedia options))) ->
                 truthy_param (snd kv) = true
                 /\ In (fst kv) ["limit"; "offset"; "character"; "series"; "tag";
                                 "media_type"])
  /\ (Api.opt_offset options = Some 0%N ->
      forall v, ~ In ("offset", v) (query (request (Api.fetchMedia options)))).
Proof.
  split; [reflexivity|]. split; [reflexivity|]. split; [reflexivity|].
  cbn [request query Api.fetchMedia]. split.
  - intros kv Hin.
    repeat (apply in_app_or in Hin as [Hin|Hin]);
      [apply append_num_truthy in Hin | apply append_num_truthy in Hin
      | apply append_str_truthy in Hin | apply append_str_truthy in Hin
      | apply append_str_truthy in Hin | apply append_str_truthy in Hin];
      destruct Hin as [<- Ht]; (split; [exact Ht|]); simpl; tauto.
  - intros Ho v Hin. rewrite Ho in Hin.
    repeat (apply in_app_or in Hin as [Hin|Hin]);
      try (apply append_num_truthy in Hin as [Hk _]; discriminate Hk);
      try (apply append_str_truthy in Hin as [Hk _]; discriminate Hk).
    destruct Hin.
Qed.

(** X14 on the first page with the character filter "tama". *)
Lemma fetchMedia_sends_only_set_parameters_witness :
  query (request (Api.fetchMedia
                    (load_options 0 {| Sidebar.character := Some (lit "tama");
                                       Sidebar.series := Some [];
                                       Sidebar.media_type := None |})))
  = [("limit", PNum 50); ("character", PStr (lit "tama"))]
  /\ forall v, ~ In ("offset", v)
                  (query (request (Api.fetchMedia
                    (load_options 0 {| Sidebar.character := Some (lit "tama");
                                       Sidebar.series := Some [];
                                       Sidebar.media_type := None |})))).
Proof.
  split; [reflexivity|].
  now apply (fetchMedia_sends_only_set_parameters
               (load_options 0 {| Sidebar.character := Some (lit "tama");
                                  Sidebar.series := Some [];
                                  Sidebar.media_type := None |})).
Defined.

End HomeMore.

(** ** The two sidebars *)

Module SidebarMore.
Import Views.

Lemma unless_all_not_All v : Sidebar.unless_all v <> Some Sidebar.All.
Proof.
  unfold Sidebar.unless_all, eqb_str.
  destruct (decide (v = Sidebar.All)); congruence.
Qed.

(** X15. The filters the sidebar hands to the page follow its selection
    and never hold the value "All": a selection of "All" is handed up as
    no filter, the kind that was changed takes the new value and the two
    others keep theirs, and no request of the page for these filters
    carries "All" as a parameter. *)
Theorem filters_never_hold_All type val st :
  let st' := fst (Sidebar.handleFilterUpdate type val st) in
  let f := snd (Sidebar.handleFilterUpdate type val st) in
  f = {| Sidebar.character := Sidebar.unless_all (Sidebar.selectedCharacter st');
         Sidebar.series := Sidebar.unless_all (Sidebar.selectedSeries st');
         Sidebar.media_type := Sidebar.unless_all (Sidebar.selectedMediaType st') |}
  /\ st' = match type with
           | Sidebar.character_filter =>
               {| Sidebar.selectedCharacter := val;
                  Sidebar.selectedSeries := Sidebar.selectedSeries st;
                  Sidebar.selectedMediaType := Sidebar.selectedMediaType st |}
           | Sidebar.series_filter =>
               {| Sidebar.selectedCharacter := Sidebar.selectedCharacter st;
                  Sidebar.selectedSeries := val;
                  Sidebar.selectedMediaType := Sidebar.selectedMediaType st |}
           | Sidebar.media_filter =>
               {| Sidebar.selectedCharacter := Sidebar.selectedCharacter st;
                  Sidebar.selectedSeries := Sidebar.selectedSeries st;
                  Sidebar.selectedMediaType := val |}
           end
  /\ Sidebar.character f <> Some Sidebar.All
  /\ Sidebar.series f <> Some Sidebar.All
  /\ Sidebar.media_type f <> Some Sidebar.All
  /\ (forall off kv,
        In kv (query (request (Api.fetchMedia (Home.load_options off f)))) ->
        snd kv <> PStr Sidebar.All).
Proof.
  cbn zeta. unfold Sidebar.handleFilterUpdate. cbn [fst snd].
  split; [reflexivity|]. split; [now destruct type|].
  cbn [Sidebar.character Sidebar.series Sidebar.media_type].
  split; [apply unless_all_not_All|]. split; [apply unless_all_not_All|].
  split; [apply unless_all_not_All|].
  intros off kv Hin. cbn [request query Api.fetchMedia Home.load_options
    Api.opt_limit Api.opt_offset Api.opt_character Api.opt_series Api.opt_tag
    Api.opt_media_type Sidebar.character Sidebar.series Sidebar.media_type] in Hin.
  assert (Hstr : forall name x, x <> Some Sidebar.All ->
                   In kv (Api.append_str name x) -> snd kv <> PStr Sidebar.All).
  { intros name x Hx. unfold Api.append_str. destruct x as [v|]; [|intros []].
    destruct (truthy_str v); [|intros []]. intros [<-|[]]. cbn [snd].
    intros [= ->]. now apply Hx. }
  assert (Hnum : forall name x,
                   In kv (Api.append_num name x) -> snd kv <> PStr Sidebar.All).
  { intros name x. unfold Api.append_num. destruct x as [n|]; [|intros []].
    destruct (n =? 0)%N; [intros []|]. intros [<-|[]]. cbn [snd]. discriminate. }
  repeat (apply in_app_or in Hin as [Hin|Hin]);
    eauto using unless_all_not_All.
Qed.

Lemma get_delete_eq name params :
  LayoutSidebar.get name (LayoutSidebar.delete name params) = None.
Proof.
  induction params as [|[k v] rest IH]; [reflexivity|].
  unfold LayoutSidebar.delete in *. cbn [List.filter fst].
  destruct (String.eqb k name) eqn:E; cbn [negb]; [exact IH|].
  cbn [LayoutSidebar.get]. now rewrite E.
Qed.

Lemma get_delete_ne name other params :
  other <> name ->
  LayoutSidebar.get other (LayoutSidebar.delete name params)
  = LayoutSidebar.get other params.
Proof.
  intros Hne. induction params as [|[k v] rest IH]; [reflexivity|].
  unfold LayoutSidebar.delete in *. cbn [List.filter fst LayoutSidebar.get].
  destruct (String.eqb k name) eqn:E; cbn [negb].
  - apply String.eqb_eq in E. subst k.
    destruct (String.eqb name other) eqn:E2; [|exact IH].
    apply String.eqb_eq in E2. congruence.
  - cbn [LayoutSidebar.get]. now rewrite IH.
Qed.

Lemma get_set_eq name value params :
  LayoutSidebar.get name (LayoutSidebar.set name value params) = Some value.
Proof.
  induction params as [|[k v] rest IH]; cbn [LayoutSidebar.set LayoutSidebar.get].
  - now rewrite String.eqb_refl.
  - destruct (String.eqb k name) eqn:E; cbn [LayoutSidebar.get].
    + now rewrite String.eqb_refl.
    + now rewrite E.
Qed.

Lemma get_set_ne name other value params :
  other <> name ->
  LayoutSidebar.get other (LayoutSidebar.set name value params)
  = LayoutSidebar.get other params.
Proof.
  intros Hne. induction params as [|[k v] rest IH];
    cbn [LayoutSidebar.set LayoutSidebar.get].
  - destruct (String.eqb name other) eqn:E; [|reflexivity].
    apply String.eqb_eq in E. congruence.
  - destruct (String.eqb k name) eqn:E; cbn [LayoutSidebar.get].
    + apply String.eqb_eq in E. subst k.
      destruct (String.eqb name other) eqn:E2.
      * apply String.eqb_eq in E2. congruence.
      * now apply get_delete_ne.
    + now rewrite IH.
Qed.

(** After [set] there is exactly one pair under the name. *)
Lemma set_leaves_one name value params :
  List.filter (fun kv => String.eqb (fst kv) name)
              (LayoutSidebar.set name value params)
  = [(name, value)].
Proof.
  assert (Hdel : forall l, List.filter (fun kv => String.eqb (fst kv) name)
                             (LayoutSidebar.delete name l) = []).
  { induction l as [|[k v] l IH]; [reflexivity|].
    unfold LayoutSidebar.delete in *. cbn [List.filter fst].
    destruct (String.eqb k name) eqn:E; cbn [negb]; [exact IH|].
    cbn [List.filter fst]. now rewrite E. }
  induction params as [|[k v] rest IH]; cbn [LayoutSidebar.set List.filter fst].
  - now rewrite String.eqb_refl.
  - destruct (String.eqb k name) eqn:E; cbn [List.filter fst].
    + now rewrite String.eqb_refl, Hdel.
    + now rewrite E.
Qed.

(** X16. [updateFilter] of the older sidebar writes one filter into the
    URL and leaves the others: a value that is neither empty nor "All" is
    stored, once, under the key, any other value removes the key; every
    other parameter reads as before; "All" and the empty string are never
    stored; and the form, following the pushed parameters, shows the
    chosen character or series ("All" for an empty choice). *)
Theorem updateFilter_writes_one_filter key value params :
  LayoutSidebar.get key (LayoutSidebar.updateFilter key value params)
  = (if truthy_str value && negb (eqb_str value Sidebar.All) then Some value else None)
  /\ (truthy_str value && negb (eqb_str value Sidebar.All) = true ->
      List.filter (fun kv => String.eqb (fst kv) key)
                  (LayoutSidebar.updateFilter key value params)
      = [(key, value)])
  /\ (forall other, other <> key ->
        LayoutSidebar.get other (LayoutSidebar.updateFilter key value params)
        = LayoutSidebar.get other params)
  /\ (forall v, LayoutSidebar.get key (LayoutSidebar.updateFilter key value params)
                = Some v -> v <> Sidebar.All /\ v <> [])
  /\ LayoutSidebar.character
       (LayoutSidebar.on_searchParams
          (LayoutSidebar.updateFilter "character" value params))
     = LayoutSidebar.str_or (Some value) Sidebar.All
  /\ LayoutSidebar.series
       (LayoutSidebar.on_searchParams
          (LayoutSidebar.updateFilter "series" value params))
     = LayoutSidebar.str_or (Some value) Sidebar.All.
Proof.
  assert (Hget : forall k,
             LayoutSidebar.get k (LayoutSidebar.updateFilter k value params)
             = (if truthy_str value && negb (eqb_str value Sidebar.All)
                then Some value else None)).
  { intros k. unfold LayoutSidebar.updateFilter.
    destruct (truthy_str value && negb (eqb_str value Sidebar.All));
      [apply get_set_eq|apply get_delete_eq]. }
  assert (Hshow : forall k,
             LayoutSidebar.str_or
               (LayoutSidebar.get k (LayoutSidebar.updateFilter k value params))
               Sidebar.All
             = LayoutSidebar.str_or (Some value) Sidebar.All).
  { intros k. rewrite Hget. unfold LayoutSidebar.str_or.
    destruct (truthy_str value) eqn:T; cbn [andb]; [|reflexivity].
    unfold eqb_str. destruct (decide (value = Sidebar.All)) as [->|]; cbn [negb].
    - reflexivity.
    - now rewrite T. }
  split; [apply Hget|]. split; [|split; [|split; [|split]]].
  - intros Hc. unfold LayoutSidebar.updateFilter. rewrite Hc. apply set_leaves_one.
  - intros other Hne. unfold LayoutSidebar.updateFilter.
    destruct (_ && _); [now apply get_set_ne|now apply get_delete_ne].
  - intros v. rewrite Hget.
    destruct (truthy_str value) eqn:T; cbn [andb]; [|discriminate].
    unfold eqb_str. destruct (decide (value = Sidebar.All)); cbn [negb]; [discriminate|].
    intros [= <-]. split; [assumption|]. now destruct value.
  - apply Hshow.
  - apply Hshow.
Qed.

(** X16 on a URL that holds a query and a character, when the character
    is set back to "All". *)
Lemma updateFilter_writes_one_filter_witness :
  LayoutSidebar.updateFilter "character" Sidebar.All
    [("q", lit "cat"); ("character", lit "tama")]
  = [("q", lit "cat")]
  /\ LayoutSidebar.get "q"
       (LayoutSidebar.updateFilter "character" Sidebar.All
          [("q", lit "cat"); ("character", lit "tama")])
     = Some (lit "cat").
Proof.
  split; [reflexivity|].
  destruct (updateFilter_writes_one_filter "character" Sidebar.All
              [("q", lit "cat"); ("character", lit "tama")]) as (_ & _ & H & _).
  rewrite (H "q"); [reflexivity|discriminate].
Defined.

(** X17. The search form of the older sidebar: a query that is not empty
    is stored under [q], an empty one removes [q], and the filters in the
    URL read as before. The gallery, reading its key from the pushed
    parameters, then searches for exactly that query, or browses with the
    filters when the query was empty. *)
Theorem layout_search_keeps_filters text params :
  LayoutSidebar.get "q" (LayoutSidebar.handleSearch text params)
  = (if truthy_str text then Some text else None)
  /\ (forall other, other <> "q" ->
        LayoutSidebar.get other (LayoutSidebar.handleSearch text params)
        = LayoutSidebar.get other params)
  /\ (forall pageParam,
        request (Gallery.fetchGallery pageParam
                   (LayoutSidebar.key_of (LayoutSidebar.handleSearch text params)))
        = if truthy_str text
          then {| method := POST; endpoint := "/api/gallery/search";
                  query := [("query", PStr text); ("top_k", PNum 50)];
                  body := None |}
          else request (Gallery.browse pageParam
                          {| Gallery.q := None;
                             Gallery.character := LayoutSidebar.get "character" params;
                             Gallery.series := LayoutSidebar.get "series" params;
                             Gallery.media_type := LayoutSidebar.get "media_type" params |})).
Proof.
  assert (Hq : LayoutSidebar.get "q" (LayoutSidebar.handleSearch text params)
               = (if truthy_str text then Some text else None)).
  { unfold LayoutSidebar.handleSearch.
    destruct (truthy_str text); [apply get_set_eq|apply get_delete_eq]. }
  assert (Hother : forall other, other <> "q" ->
             LayoutSidebar.get other (LayoutSidebar.handleSearch text params)
             = LayoutSidebar.get other params).
  { intros other Hne. unfold LayoutSidebar.handleSearch.
    destruct (truthy_str text); [now apply get_set_ne|now apply get_delete_ne]. }
  split; [exact Hq|]. split; [exact Hother|].
  intros pageParam. unfold Gallery.fetchGallery, LayoutSidebar.key_of.
  cbn [Gallery.q]. rewrite Hq.
  destruct (truthy_str text) eqn:T.
  - now rewrite T.
  - unfold Gallery.browse. cbn [request Gallery.character Gallery.series Gallery.media_type].
    rewrite !Hother by discriminate. reflexivity.
Qed.

End SidebarMore.

(** X15 on a sidebar that shows the character "tama" when the media type
    is set back to "All". *)
Lemma filters_never_hold_All_witness :
  snd (Sidebar.handleFilterUpdate Sidebar.media_filter Sidebar.All
         {| Sidebar.selectedCharacter := lit "tama";
            Sidebar.selectedSeries := Sidebar.All;
            Sidebar.selectedMediaType := lit "video" |})
  = {| Sidebar.character := Some (lit "tama"); Sidebar.series := None;
       Sidebar.media_type := None |}.
Proof.
  destruct (SidebarMore.filters_never_hold_All Sidebar.media_filter Sidebar.All
              {| Sidebar.selectedCharacter := lit "tama";
                 Sidebar.selectedSeries := Sidebar.All;
                 Sidebar.selectedMediaType := lit "video" |}) as [E _].
  exact E.
Defined.

(** X17 on a URL with a series filter, when "red umbrella" is searched. *)
Lemma layout_search_keeps_filters_witness :
  LayoutSidebar.get "series"
    (LayoutSidebar.handleSearch (lit "red umbrella") [("series", lit "s1")])
  = Some (lit "s1").
Proof.
  destruct (SidebarMore.layout_search_keeps_filters (lit "red umbrella")
              [("series", lit "s1")]) as (_ & H & _).
  rewrite (H "series"); [reflexivity|discriminate].
Defined.

(** ** The grid, its cards, and the older gallery *)

Module GridMore.
Import GalleryGrid DomFacts Views.

Lemma collect_El {H B} (f : VNode H -> list B) tag attrs cs :
  flat_map f (nodes (El tag attrs cs))
  = f (El tag attrs cs) ++ flat_map (fun c => flat_map f (nodes c)) cs.
Proof.
  cbn [nodes flat_map]. f_equal.
  induction cs as [|c cs IH]; [reflexivity|].
  cbn [flat_map]. now rewrite List.flat_map_app, IH.
Qed.

(** What a card holds: its own item, no sentinel. *)
Lemma card_holds_its_item item hovered :
  card_items (MediaCard item hovered) = [item]
  /\ has_sentinel (MediaCard item hovered) = false.
Proof.
  destruct item as [i fp mt w h tags [|a [|b ctags]] stags [[|c text]|]];
    unfold card_items, has_sentinel, MediaCard, is_video, when;
    cbn [Api.snippet Api.character_tags Api.media_type Api.id length Nat.ltb
         Nat.leb firstn List.map truthy_str];
    destruct hovered, (eqb_str mt (lit "video")); split; reflexivity.
Qed.

(** X18. A card: the video preview plays exactly on a hovered video, the
    VIDEO badge shows exactly on a video that is not hovered, so never
    both and neither on an image; the tags shown are the first two
    character tags, in order; and a click selects the card's own item. *)
Theorem card_preview_badge_and_tags item hovered :
  plays_video (MediaCard item hovered) = hovered && is_video item
  /\ has_badge (MediaCard item hovered) = is_video item && negb hovered
  /\ shown_tags (MediaCard item hovered) = firstn 2 (Api.character_tags item)
  /\ card_items (MediaCard item hovered) = [item]
  /\ has_sentinel (MediaCard item hovered) = false.
Proof.
  destruct item as [i fp mt w h tags [|a [|b ctags]] stags [[|c text]|]];
    unfold plays_video, has_badge, shown_tags, card_items, has_sentinel,
      MediaCard, is_video, when;
    cbn [Api.snippet Api.character_tags Api.media_type Api.id length Nat.ltb
         Nat.leb firstn List.map truthy_str];
    destruct hovered, (eqb_str mt (lit "video")); repeat split.
Qed.

Lemma card_items_El tag attrs cs :
  card_items (El tag attrs cs)
  = match card_item (El tag attrs cs) with Some i => [i] | None => [] end
    ++ flat_map card_items cs.
Proof. unfold card_items. apply collect_El. Qed.

Lemma has_sentinel_El tag attrs cs :
  has_sentinel (El tag attrs cs)
  = has_tag "Loader2" (El (H := Event) tag attrs cs) || existsb has_sentinel cs.
Proof. unfold has_sentinel. apply TreeFacts.existsb_nodes_El. Qed.

Lemma cards_collect (hovered : Api.MediaItem -> bool) items :
  flat_map card_items (List.map (fun item => MediaCard item (hovered item)) items)
  = items.
Proof.
  induction items as [|it items IH]; [reflexivity|].
  cbn [List.map flat_map]. rewrite IH.
  destruct (card_holds_its_item it (hovered it)) as [E _]. now rewrite E.
Qed.

Lemma cards_hold_no_sentinel (hovered : Api.MediaItem -> bool) items :
  existsb has_sentinel (List.map (fun item => MediaCard item (hovered item)) items)
  = false.
Proof.
  induction items as [|it items IH]; [reflexivity|].
  cbn [List.map existsb]. rewrite IH.
  destruct (card_holds_its_item it (hovered it)) as [_ E]. now rewrite E.
Qed.

(** X19. The grid shows one card per item of its list, in the order of
    the list, each selecting its own item; the sentinel that loads more
    is shown exactly when more is to be had and the list is not empty;
    and an empty list shows the "No media found" message, with no card
    and no sentinel even if more is said to be had. *)
Theorem grid_shows_one_card_per_item props query hovered :
  card_items (render props query hovered) = media props
  /\ has_sentinel (render props query hovered)
     = hasMore props && (0 <? length (media props))%nat
  /\ (media props = [] ->
      shows_text (lit "No media found. Try another search.")
                 (render props query hovered) = true).
Proof.
  destruct props as [items more onLoad onMenu]. cbn [media hasMore].
  split; [|split].
  - unfold render. cbn [media hasMore has_onMenuClick].
    rewrite card_items_El. cbn [card_item attrs_of List.find flat_map].
    match goal with
    | |- context [card_items (El "div" [] (when ?b ?x ++ [?f]))] =>
        replace (card_items (El "div" [] (when b x ++ [f])))
          with (@nil Api.MediaItem) by (destruct b; reflexivity)
    end.
    rewrite card_items_El, List.flat_map_app.
    cbn [card_item attrs_of List.find flat_map app].
    match goal with
    | |- context [flat_map card_items (when ?b ?x)] =>
        replace (flat_map card_items (when b x))
          with (@nil Api.MediaItem) by (destruct b; reflexivity)
    end.
    rewrite !app_nil_r.
    destruct items as [|it items]; [reflexivity|].
    cbn [length Nat.eqb]. rewrite card_items_El.
    cbn [card_item attrs_of List.find app]. apply cards_collect.
  - unfold render. cbn [media hasMore has_onMenuClick].
    rewrite has_sentinel_El. cbn [has_tag String.eqb Ascii.eqb Bool.eqb existsb orb].
    match goal with
    | |- context [has_sentinel (El "div" [] (when ?b ?x ++ [?f]))] =>
        replace (has_sentinel (El "div" [] (when b x ++ [f])))
          with false by (destruct b; reflexivity)
    end.
    rewrite has_sentinel_El, existsb_app.
    cbn [has_tag String.eqb Ascii.eqb Bool.eqb existsb orb].
    rewrite !orb_false_r.
    destruct items as [|it items].
    + cbn [length Nat.ltb Nat.leb Nat.eqb]. rewrite andb_false_r. reflexivity.
    + cbn [length Nat.ltb Nat.leb Nat.eqb]. rewrite has_sentinel_El.
      rewrite cards_hold_no_sentinel.
      cbn [has_tag String.eqb Ascii.eqb Bool.eqb orb]. rewrite andb_true_r.
      now destruct more.
  - intros ->. destruct onMenu, more; reflexivity.
Qed.

(** X19 on an empty list that is said to have more. *)
Lemma grid_shows_one_card_per_item_witness :
  has_sentinel (render {| media := []; hasMore := true; has_onLoadMore := true;
                          has_onMenuClick := true |} [] (fun _ => false))
  = false
  /\ shows_text (lit "No media found. Try another search.")
       (render {| media := []; hasMore := true; has_onLoadMore := true;
                  has_onMenuClick := true |} [] (fun _ => false))
     = true.
Proof.
  destruct (grid_shows_one_card_per_item
              {| media := []; hasMore := true; has_onLoadMore := true;
                 has_onMenuClick := true |} [] (fun _ => false)) as (_ & Hs & He).
  split; [exact Hs|now apply He].
Defined.

Lemma length_full_pages (pages : list (list Api.MediaItem)) :
  Forall (fun page => length page = 50%nat) pages ->
  length (LayoutSidebar.items pages) = (length pages * 50)%nat.
Proof.
  unfold LayoutSidebar.items.
  induction 1 as [|page pages Hp _ IH]; [reflexivity|].
  cbn [List.concat length]. rewrite List.length_app, Hp, IH. lia.
Qed.

(** X20. Paging of the older gallery when no query is set: while every
    loaded page is full (50 items), the sentinel coming into view asks
    for exactly one further page, whose offset is the number of items
    already loaded, with limit 50; once the last page is short, it asks
    for nothing. *)
Theorem next_page_starts_where_the_list_ends key pages :
  truthy_ostr (Gallery.q key) = false ->
  (pages <> [] -> Forall (fun page => length page = 50%nat) pages ->
   Gallery.on_in_view key pages true
   = [request (Gallery.browse (N.of_nat (length (LayoutSidebar.items pages))) key)]
   /\ exists rest,
        query (request (Gallery.browse (N.of_nat (length (LayoutSidebar.items pages))) key))
        = ("limit", PStr (lit "50"))
          :: ("offset", PNum (N.of_nat (length (LayoutSidebar.items pages)))) :: rest)
  /\ (forall lastPage, last pages = Some lastPage -> (length lastPage < 50)%nat ->
                       forall inView, Gallery.on_in_view key pages inView = []).
Proof.
  intros Hq. split.
  - intros Hne Hfull.
    destruct (last pages) as [lastPage|] eqn:Hl;
      [|apply last_None in Hl; contradiction].
    assert (Hlen : length lastPage = 50%nat).
    { rewrite Forall_forall in Hfull. apply Hfull.
      apply last_Some in Hl as [l' ->]. apply elem_of_app. right. now left. }
    rewrite (length_full_pages _ Hfull).
    assert (Hnext : Gallery.getNextPageParam key lastPage pages
                    = Some (N.of_nat (length pages * 50))).
    { unfold Gallery.getNextPageParam. rewrite Hq, Hlen. cbn [Nat.ltb Nat.leb].
      f_equal. lia. }
    split.
    + unfold Gallery.on_in_view, Gallery.hasNextPage. rewrite Hl, Hnext.
      cbn [andb]. f_equal. f_equal.
      unfold Gallery.fetchGallery. destruct (Gallery.q key) as [v|]; [|reflexivity].
      cbn in Hq. now rewrite Hq.
    + eexists. reflexivity.
  - intros lastPage Hl Hshort inView.
    unfold Gallery.on_in_view, Gallery.hasNextPage, Gallery.getNextPageParam.
    rewrite Hl, Hq. apply Nat.ltb_lt in Hshort. rewrite Hshort.
    now rewrite andb_false_r.
Qed.

(** X20 after one full page. *)
Lemma next_page_starts_where_the_list_ends_witness :
  Gallery.on_in_view
    {| Gallery.q := None; Gallery.character := None; Gallery.series := None;
       Gallery.media_type := None |}
    [repeat ChatPanel.sample_item 50] true
  = [ {| method := GET; endpoint := "/api/gallery/";
         query := [("limit", PStr (lit "50")); ("offset", PNum 50)];
         body := None |} ].
Proof.
  destruct (next_page_starts_where_the_list_ends
              {| Gallery.q := None; Gallery.character := None; Gallery.series := None;
                 Gallery.media_type := None |}
              [repeat ChatPanel.sample_item 50] eq_refl) as [H _].
  destruct H as [E _]; [discriminate|repeat constructor|].
  rewrite E. reflexivity.
Defined.

End GridMore.

(** X8 on a search answered with a response that is not ok and yet has
    items in its body: the one item listed stays. *)
Lemma failed_request_keeps_the_list_witness :
  Home.media
    (final (Home.handleSearch (lit "cat") (Home.setMedia [ChatPanel.sample_item] Home.initial))
           (Response false (Returned [Home.sample_video])))
  = [ChatPanel.sample_item].
Proof.
  pose proof (proj1 (proj2 (HomeMore.failed_request_keeps_the_list
                              (Home.setMedia [ChatPanel.sample_item] Home.initial)
                              (lit "cat") 0%N Sidebar.no_filters))) as H.
  exact (proj1 (H (Response false (Returned [Home.sample_video]))
                  (Home.setLoading true
                     (Home.setCurrentSearch (lit "cat")
                        (Home.setMedia [ChatPanel.sample_item] Home.initial)))
                  eq_refl)).
Defined.

(** X9 on a page that holds "Search failed." when a later search
    succeeds: the message is still there. *)
Lemma error_is_sticky_witness :
  truthy_str
    (Home.error
       (final (Home.handleSearch (lit "cat")
                 (Home.setError (lit "Search failed.") Home.initial))
              (Response true (Returned [Home.sample_video]))))
  = true.
Proof.
  pose proof (proj1 (proj2 (HomeMore.error_is_sticky
                              (Home.setError (lit "Search failed.") Home.initial)
                              (lit "cat") 0%N Sidebar.no_filters))) as H.
  exact (proj2 H (Response true (Returned [Home.sample_video]))
           (Home.setLoading true
              (Home.setCurrentSearch (lit "cat")
                 (Home.setError (lit "Search failed.") Home.initial)))
           eq_refl).
Defined.
